(** * kitchenAI: the recipe backend, its pipeline, login and history routes

    A shallow embedding of the three revisions of the server that the
    repository holds:

    - [Direct]   : src/server.js, first revision (one direct model call);
    - [Guarded]  : src/server.js, second revision (one-node graph with the
                   guarded prompt, stricter login validation);
    - [TwoStage] : src/unnamed/part_000 (categorize, then generate; no users).

    The hosted model, the JSON-web-token library and the availability of the
    document store are outside the program; each request carries an [env]
    that says how they answer during that request.  Requests are served one
    after the other, and are taken where they reach a route: the packages
    mounted in front of the routes (helmet, cors, the JSON body parser, the
    rate limiter, static files) and the console output are not part of the
    model.  Strings are sequences of UTF-8 bytes. *)

From Stdlib Require Import String Ascii List ZArith Bool Lia Arith.
From Stdlib Require Import Sorting.Sorted Sorting.Permutation.
From Stdlib Require Import Numbers.DecimalString.
Import ListNotations.

Local Open Scope string_scope.
Local Open Scope list_scope.

(** ** JavaScript values and coercions *)

Module JS.

(** The values a JSON request body or a graph channel can hold.  [JNum z] is
    the integer-valued number [z] (of a size whose string form is its decimal
    numeral); [JObj] is a plain (non-array) object, whose content no route
    reads. *)
Inductive jsval :=
| JUndefined
| JNull
| JBool (b : bool)
| JNum (z : Z)
| JStr (s : string)
| JObj.

(** ToBoolean: what [if (v)], [!v], [a && b] and [y ? y : x] test. *)
Definition truthy (v : jsval) : bool :=
  match v with
  | JUndefined | JNull => false
  | JBool b => b
  | JNum z => negb (z =? 0)%Z
  | JStr s => negb (s =? "")
  | JObj => true
  end.

(** [typeof v === 'string'] *)
Definition is_string (v : jsval) : bool :=
  match v with JStr _ => true | _ => false end.

(** ToString: template literals [`${v}`] and [RegExp.prototype.test]. *)
Definition to_js_string (v : jsval) : string :=
  match v with
  | JUndefined => "undefined"
  | JNull => "null"
  | JBool true => "true"
  | JBool false => "false"
  | JNum z => NilZero.string_of_int (Z.to_int z)
  | JStr s => s
  | JObj => "[object Object]"
  end.

(** The double quote character, as a one-character string. *)
Definition dq : string := String (ascii_of_nat 34) EmptyString.

(** *** String.prototype.trim

    White space and line terminators of ECMAScript, in their UTF-8
    encodings: one byte (TAB, LF, VT, FF, CR, SP), two bytes (U+00A0) and
    three bytes (U+1680, U+2000..U+200A, U+2028, U+2029, U+202F, U+205F,
    U+3000, U+FEFF). *)
Definition ws1 (c : ascii) : bool :=
  let n := nat_of_ascii c in
  (((9 <=? n) && (n <=? 13)) || (n =? 32))%nat.

Definition ws2 (c1 c2 : ascii) : bool :=
  ((nat_of_ascii c1 =? 194) && (nat_of_ascii c2 =? 160))%nat.

Definition ws3 (c1 c2 c3 : ascii) : bool :=
  let a := nat_of_ascii c1 in
  let b := nat_of_ascii c2 in
  let c := nat_of_ascii c3 in
  (((a =? 225) && (b =? 154) && (c =? 128))
   || ((a =? 226) && (b =? 128)
       && (((128 <=? c) && (c <=? 138)) || (c =? 168) || (c =? 169) || (c =? 175)))
   || ((a =? 226) && (b =? 129) && (c =? 159))
   || ((a =? 227) && (b =? 128) && (c =? 128))
   || ((a =? 239) && (b =? 187) && (c =? 191)))%nat.

(** Drops leading white space.  With [back = true] the string is read from
    its end (the bytes of an encoding arrive last byte first). *)
Fixpoint strip (back : bool) (s : string) : string :=
  match s with
  | EmptyString => EmptyString
  | String c1 s1 =>
      if ws1 c1 then strip back s1 else
      match s1 with
      | EmptyString => s
      | String c2 s2 =>
          if (if back then ws2 c2 c1 else ws2 c1 c2) then strip back s2 else
          match s2 with
          | EmptyString => s
          | String c3 s3 =>
              if (if back then ws3 c3 c2 c1 else ws3 c1 c2 c3)
              then strip back s3 else s
          end
      end
  end.

Definition string_rev (s : string) : string :=
  string_of_list_ascii (rev (list_ascii_of_string s)).

Definition trim (s : string) : string :=
  string_rev (strip true (string_rev (strip false s))).

(** *** [s.split(' ')] *)
Fixpoint split_space (s : string) : list string :=
  match s with
  | EmptyString => [EmptyString]
  | String c s' =>
      if (c =? " ")%char then EmptyString :: split_space s'
      else match split_space s' with
           | h :: t => String c h :: t
           | [] => [String c EmptyString]
           end
  end.

(** *** [/^\d{10}$/.test(s)] *)
Definition is_digit (c : ascii) : bool :=
  let n := nat_of_ascii c in ((48 <=? n) && (n <=? 57))%nat.

Definition ten_digits (s : string) : bool :=
  (String.length s =? 10)%nat && forallb is_digit (list_ascii_of_string s).

End JS.
Export JS.

(** ** Asynchronous code that can reject

    A route handler is an [async] function whose body sits in [try]/[catch]:
    every awaited call either yields a value or rejects, and a rejection
    skips the rest of the [try] block.  [M S A] is such a computation over
    the mutable state [S]. *)

Inductive outcome (A : Type) : Type :=
| Ret (a : A)
| Throw.
Arguments Ret {A} a.
Arguments Throw {A}.

Definition M (S A : Type) : Type := S -> outcome A * S.

Definition ret {S A} (a : A) : M S A := fun s => (Ret a, s).

Definition throw {S A} : M S A := fun s => (Throw, s).

Definition bind {S A B} (m : M S A) (k : A -> M S B) : M S B :=
  fun s =>
    match m s with
    | (Ret a, s') => k a s'
    | (Throw, s') => (Throw, s')
    end.

(** [try { body } catch (error) { handler }] *)
Definition try_catch {S A} (body handler : M S A) : M S A :=
  fun s =>
    match body s with
    | (Ret a, s') => (Ret a, s')
    | (Throw, s') => handler s'
    end.

(** [m] keeps the property [P] of the state, whether it returns or
    rejects. *)
Definition preserves {S A} (P : S -> Prop) (m : M S A) : Prop :=
  forall s, P s -> P (snd (m s)).

Declare Scope async_scope.
Delimit Scope async_scope with async.
Notation "x <- m ;; k" := (bind m (fun x => k))
  (at level 61, m at next level, right associativity) : async_scope.

(** An HTTP response: [res.status(n).json(b)]; [res.json(b)] is status 200. *)
Record response (B : Type) : Type := mkResponse { status : nat; body : B }.
Arguments mkResponse {B} status body.
Arguments status {B} r.
Arguments body {B} r.

(** What the hosted model answers to one prompt: the text of the completion,
    or a rejected call. *)
Inductive llm_result :=
| Completion (content : string)
| LlmError.

(** ** [.sort({ createdAt: -1 })]

    Newest first.  The sort is an insertion sort that keeps the stored order
    of documents with one creation time. *)
Section Sorting.
Context {A : Type} (key : A -> Z).

Fixpoint insert_desc (x : A) (l : list A) : list A :=
  match l with
  | [] => [x]
  | y :: l' =>
      if (key y <=? key x)%Z then x :: y :: l' else y :: insert_desc x l'
  end.

Fixpoint sort_desc (l : list A) : list A :=
  match l with
  | [] => []
  | x :: l' => insert_desc x (sort_desc l')
  end.

(** Neighbours are in descending order of [key]. *)
Definition desc (x y : A) : Prop := (key y <= key x)%Z.
End Sorting.

(** ** The graph engine

    [new StateGraph({ channels })] with nodes chained by edges from START to
    END.  A JS object is the list of its keys with their values. *)
Definition object : Type := list (string * jsval).

Fixpoint get (k : string) (o : object) : option jsval :=
  match o with
  | [] => None
  | (k', v) :: o' => if k' =? k then Some v else get k o'
  end.

(** [o.k]: the value of a key, [undefined] when the object has none. *)
Definition read (o : object) (k : string) : jsval :=
  match get k o with
  | Some v => v
  | None => JUndefined
  end.

(** One entry of [graphState]: [{ value: (x, y) => ..., default: () => ... }]. *)
Record channel : Type := mkChannel {
  value : jsval -> jsval -> jsval;
  default : jsval
}.

(** The state before any write: every channel at its default. *)
Definition start (channels : list (string * channel)) : object :=
  map (fun kc => (fst kc, default (snd kc))) channels.

(** Applies an update (the input object, or the object a node returned) to
    the state: a channel whose key the update holds gets
    [value(current, written)]; a channel whose key is absent keeps its
    value. *)
Definition merge (channels : list (string * channel)) (st u : object) : object :=
  map (fun kc =>
         (fst kc,
          match get (fst kc) u with
          | Some y => value (snd kc) (read st (fst kc)) y
          | None => read st (fst kc)
          end))
      channels.

(** The nodes run one after the other, in the order of the edges; a node
    that rejects ends the run. *)
Fixpoint run_nodes {S : Type} (channels : list (string * channel))
    (nodes : list (object -> M S object)) (st : object) : M S object :=
  match nodes with
  | [] => ret st
  | node :: rest =>
      bind (node st) (fun u => run_nodes channels rest (merge channels st u))
  end.

(** [appGraph.invoke(inputs)] *)
Definition invoke {S : Type} (channels : list (string * channel))
    (nodes : list (object -> M S object)) (inputs : object) : M S object :=
  run_nodes channels nodes (merge channels (start channels) inputs).

(** ** Mongoose casts

    A [String] path takes a string as it is, a number or boolean through
    [toString()], keeps [null]/[undefined], and refuses a plain object with a
    CastError, which [save()] reports as a rejection. *)
Inductive cast :=
| CastOk (v : option string)
| CastError.

Definition cast_string (v : jsval) : cast :=
  match v with
  | JUndefined | JNull => CastOk None
  | JObj => CastError
  | _ => CastOk (Some (to_js_string v))
  end.

(** ** Tokens (jsonwebtoken) and the per-request environment *)

(** The payload [{ id, phone, name }] that login signs and [jwt.verify]
    hands back as [req.user]. *)
Record claims : Type := mkClaims {
  claim_id : nat;
  claim_phone : string;
  claim_name : string
}.

(** The errors [jwt.verify] passes to its callback. *)
Inductive jwt_error :=
| JsonWebTokenError   (* malformed token, invalid signature *)
| TokenExpiredError   (* past its [exp] *)
| NotBeforeError.

Inductive jwt_result :=
| Verified (user : claims)
| Rejected (err : jwt_error).

(** What lies outside the program while one request is served. *)
Record env : Type := mkEnv {
  now : Z;                              (* Date.now() *)
  llm : string -> llm_result;           (* the hosted model, by prompt *)
  jwt_sign : claims -> string -> string;   (* jwt.sign(payload, JWT_SECRET, { expiresIn }) *)
  jwt_verify : string -> jwt_result;    (* jwt.verify(token, JWT_SECRET, callback) *)
  find_ok : bool;                       (* the store answers queries *)
  save_ok : bool                        (* the store accepts writes *)
}.

(** ** src/server.js: what its two revisions share *)

Module Server.

(** [UserSchema]: [{ name, phone (required, unique), createdAt }], with the
    [_id] Mongoose gives every document. *)
Record User : Type := mkUser {
  user_id : nat;
  user_name : string;
  user_phone : string;
  user_createdAt : Z
}.

(** [RequestSchema] *)
Record RecipeRequest : Type := mkRequest {
  _id : nat;
  userPhone : string;             (* required, indexed *)
  dishName : option string;
  category : option string;       (* default 'Gourmet' *)
  recipe : option string;
  createdAt : Z                   (* default Date.now *)
}.

(** The two collections, the ObjectId generator, and the prompts sent to the
    model so far (oldest first). *)
Record world : Type := mkWorld {
  users : list User;
  requests : list RecipeRequest;
  next_oid : nat;
  calls : list string
}.

(** The JSON bodies of the responses. *)
Inductive body :=
| Error (error : string)                         (* { error } *)
| LoginOk (token : string) (name phone : string) (* { success: true, token, user: { name, phone } } *)
| History (docs : list RecipeRequest)
| Recipe (id : nat) (dish : jsval) (recipe_text : jsval) (created : Z).
                                                 (* { _id, dishName, recipe, createdAt } *)

(** What the unique index on [phone] maintains. *)
Definition unique_phones (w : world) : Prop :=
  NoDup (map user_phone (users w)).

(** A request to one of the three routes under [/api/]: the body of a login,
    the Authorization header of a history request, the header and the body
    of a recipe request. *)
Inductive request :=
| PostLogin (name phone : jsval)
| GetHistory (authHeader : option string)
| PostGetRecipe (authHeader : option string) (dish : jsval).

Definition async : Type -> Type := M world.

(** The server over time: the requests are served one after the other, each
    in its own environment, by the routes [app]. *)
Fixpoint serve (app : env -> request -> async (response body))
    (trace : list (env * request)) (w : world) : world :=
  match trace with
  | [] => w
  | (e, req) :: rest => serve app rest (snd (app e req w))
  end.

(** One awaited call to the hosted model: [model.generateContent(prompt)]
    then [response.text()] in the first revision, [llm.invoke([new
    HumanMessage(prompt)])] then [response.content] in the second. *)
Definition model_call (e : env) (prompt : string) : async string :=
  fun w =>
    let w' := mkWorld (users w) (requests w) (next_oid w) (calls w ++ [prompt]) in
    match llm e prompt with
    | Completion text => (Ret text, w')
    | LlmError => (Throw, w')
    end.

Definition fresh_oid : async nat :=
  fun w => (Ret (next_oid w), mkWorld (users w) (requests w) (S (next_oid w)) (calls w)).

(** [UserModel.findOne({ phone })]: the first stored user with that phone.
    The filter is cast like a document; the route asks with a truthy phone
    that passed the digit test, so the cast gives a string. *)
Definition findOne (e : env) (phone : jsval) : async (option User) :=
  fun w =>
    match cast_string phone with
    | CastOk (Some p) =>
        if find_ok e
        then (Ret (find (fun u => user_phone u =? p) (users w)), w)
        else (Throw, w)
    | _ => (Throw, w)
    end.

(** [new UserModel({ name, phone })]; [None] is a document that will not
    validate: a value that does not cast, or no [phone], which is required.
    Both values are truthy where the route builds a user, so a cast gives a
    string or fails. *)
Definition new_UserModel (e : env) (name phone : jsval) : async (option User) :=
  (oid <- fresh_oid ;;
   ret match cast_string name, cast_string phone with
       | CastOk (Some n), CastOk (Some p) =>
           if p =? "" then None else Some (mkUser oid n p (now e))
       | _, _ => None
       end)%async.

(** [user.save()]: rejects on a document that does not validate, on a phone
    the unique index already holds, and when the store does not accept the
    write. *)
Definition save_user (e : env) (doc : option User) : async User :=
  fun w =>
    match doc with
    | None => (Throw, w)
    | Some u =>
        if save_ok e && negb (existsb (fun v => user_phone v =? user_phone u) (users w))
        then (Ret u, mkWorld (users w ++ [u]) (requests w) (next_oid w) (calls w))
        else (Throw, w)
    end.

(** [new RequestModel({ userPhone, dishName, category, recipe })].  A key
    left out is [JUndefined]; [category] then takes the schema default.
    [userPhone] is required, which an empty string does not satisfy. *)
Definition new_RequestModel (e : env) (phone : string) (dish cat text : jsval)
  : async (option RecipeRequest) :=
  (oid <- fresh_oid ;;
   ret match cast_string dish,
             cast_string (match cat with JUndefined => JStr "Gourmet" | _ => cat end),
             cast_string text with
       | CastOk d, CastOk c, CastOk r =>
           if phone =? "" then None else Some (mkRequest oid phone d c r (now e))
       | _, _, _ => None
       end)%async.

(** [newRequest.save()] *)
Definition save_request (e : env) (doc : option RecipeRequest) : async RecipeRequest :=
  fun w =>
    match doc with
    | None => (Throw, w)
    | Some r =>
        if save_ok e
        then (Ret r, mkWorld (users w) (requests w ++ [r]) (next_oid w) (calls w))
        else (Throw, w)
    end.

(** [RequestModel.find({ userPhone }).sort({ createdAt: -1 })] *)
Definition find_by_phone (e : env) (phone : string) : async (list RecipeRequest) :=
  fun w =>
    if find_ok e
    then (Ret (sort_desc createdAt (filter (fun r => userPhone r =? phone) (requests w))), w)
    else (Throw, w).

Section Routes.
(** The two revisions differ in the messages of the middleware and in the
    life time of a token. *)
Variables (no_token invalid_token : string) (expiresIn : string).

(** [authHeader && authHeader.split(' ')[1]]; [None] is [undefined]. *)
Definition header_token (authHeader : option string) : option string :=
  match authHeader with
  | None => None
  | Some h => if truthy (JStr h) then nth_error (split_space h) 1 else Some h
  end.

(** The middleware: a response of its own, or the verified claims with
    which the route goes on ([req.user = user; next()]). *)
Definition authenticateToken (e : env) (authHeader : option string)
  : response body + claims :=
  match header_token authHeader with
  | None => inl (mkResponse 401 (Error no_token))
  | Some token =>
      if negb (truthy (JStr token)) then inl (mkResponse 401 (Error no_token))
      else match jwt_verify e token with
           | Rejected _ => inl (mkResponse 403 (Error invalid_token))
           | Verified user => inr user
           end
  end.

(** [app.METHOD(path, authenticateToken, handler)] *)
Definition protected (e : env) (authHeader : option string)
    (handler : claims -> async (response body)) : async (response body) :=
  match authenticateToken e authHeader with
  | inl r => ret r
  | inr user => handler user
  end.

(** The [try] block of [/api/login], entered once the input is valid. *)
Definition find_or_create (e : env) (name phone : jsval) : async (response body) :=
  try_catch
    (found <- findOne e phone ;;
     user <- match found with
             | Some u => ret u
             | None => doc <- new_UserModel e name phone ;; save_user e doc
             end ;;
     let token :=
       jwt_sign e (mkClaims (user_id user) (user_phone user) (user_name user)) expiresIn in
     ret (mkResponse 200 (LoginOk token (user_name user) (user_phone user))))%async
    (ret (mkResponse 500 (Error "Login failed"))).

(** [app.get('/api/history', authenticateToken, ...)] *)
Definition api_history (e : env) (authHeader : option string) : async (response body) :=
  protected e authHeader (fun user =>
    try_catch
      (history <- find_by_phone e (claim_phone user) ;;
       ret (mkResponse 200 (History history)))%async
      (ret (mkResponse 500 (Error "Failed to fetch history")))).
End Routes.

End Server.

(** ** src/server.js, first revision: one direct call to the model *)

Module Direct.
Import Server.

Definition authenticateToken := Server.authenticateToken "Access Denied" "Invalid Token".

(** [app.post('/api/login', ...)] *)
Definition api_login (e : env) (name phone : jsval) : async (response body) :=
  if negb (truthy name) || negb (truthy phone)
  then ret (mkResponse 400 (Error "Invalid input"))
  else if negb (ten_digits (to_js_string phone))
  then ret (mkResponse 400 (Error "Phone number must be exactly 10 digits"))
  else find_or_create "24h" e name phone.

Definition api_history := Server.api_history "Access Denied" "Invalid Token".

Definition prompt (dish : jsval) : string :=
  "
    You are a Chef API. The user wants a recipe for: " ++ dq ++ to_js_string dish ++ dq ++ ".

    STRICT OUTPUT RULES:
    1. Do NOT include any introductory text.
    2. Start IMMEDIATELY with a Markdown Table for Ingredients.
    3. Followed immediately by a Markdown Numbered List for Steps.
    4. Do NOT include a conclusion or outro.
    
    Format Example:
    
    | Ingredient | Quantity |
    |------------|----------|
    | Item 1     | 1 cup    |

    ## Instructions
    1. Step one...
    ".

(** The handler of [/api/get-recipe], behind the middleware. *)
Definition get_recipe (e : env) (dish : jsval) (user : claims) : async (response body) :=
  try_catch
    (if negb (truthy dish)
     then ret (mkResponse 400 (Error "Dish name required"))
     else
       recipeText <- model_call e (prompt dish) ;;
       doc <- new_RequestModel e (claim_phone user) dish JUndefined (JStr recipeText) ;;
       newRequest <- save_request e doc ;;
       ret (mkResponse 200
              (Recipe (_id newRequest) dish (JStr recipeText) (createdAt newRequest))))%async
    (ret (mkResponse 500 (Error "Chef is busy (Server Error)"))).

(** [app.post('/api/get-recipe', authenticateToken, ...)] *)
Definition api_get_recipe (e : env) (authHeader : option string) (dish : jsval)
  : async (response body) :=
  protected "Access Denied" "Invalid Token" e authHeader (get_recipe e dish).

(** The routes of this revision. *)
Definition app (e : env) (req : request) : async (response body) :=
  match req with
  | PostLogin name phone => api_login e name phone
  | GetHistory authHeader => api_history e authHeader
  | PostGetRecipe authHeader dish => api_get_recipe e authHeader dish
  end.

End Direct.

(** ** src/server.js, second revision: the guarded one-node graph *)

Module Guarded.
Import Server.

(** The refusal the prompt dictates for a request that is not about food. *)
Definition refusal_message : string :=
  "🚫 **Security Alert:** I can only help with cooking and recipes.".

Definition prompt (dish_name : jsval) : string :=
  "
  You are a specialized Gourmet Chef AI.

  SYSTEM INSTRUCTIONS:
  1. Your ONLY purpose is to provide cooking recipes.
  2. You must analyze the content inside the " ++ dq ++ "USER_REQUEST" ++ dq ++ " delimiter below.
  3. **SAFETY CHECK:** If the content inside the delimiter is NOT a food item (e.g., it asks about code, politics, math, or hacking), you must REFUSE.
     - Refusal Message: " ++ dq ++ refusal_message ++ dq ++ "
  4. If valid, format the output with:
     - A Markdown Table for ingredients.
     - Numbered list for steps.
  5. Do NOT include any intro/outro conversation.

  USER_REQUEST:
  " ++ dq ++ dq ++ dq ++ "
  " ++ to_js_string dish_name ++ "
  " ++ dq ++ dq ++ dq ++ "
  
  Execute the system instructions on the USER_REQUEST above.
  ".

(** Node: recipe generation. *)
Definition recipeNode (e : env) (state : object) : async object :=
  (let dish_name := read state "dish_name" in
   content <- model_call e (prompt dish_name) ;;
   ret [("recipe", JStr content)])%async.

Definition graphState : list (string * channel) :=
  [ ("dish_name", {| value := fun x y => if truthy y then y else x; default := JNull |});
    ("recipe",    {| value := fun x y => if truthy y then y else x; default := JNull |}) ].

(** START -> generate_recipe -> END *)
Definition workflow (e : env) : list (object -> async object) :=
  [ recipeNode e ].

Definition appGraph_invoke (e : env) (inputs : object) : async object :=
  invoke graphState (workflow e) inputs.

Definition isValidPhone (phone : jsval) : bool := ten_digits (to_js_string phone).

Definition authenticateToken :=
  Server.authenticateToken "Access Denied: No Token Provided" "Access Denied: Invalid Token".

(** [app.post('/api/login', ...)] *)
Definition api_login (e : env) (name phone : jsval) : async (response body) :=
  if negb (truthy name) || negb (truthy phone)
     || negb (is_string name) || negb (is_string phone)
  then ret (mkResponse 400 (Error "Invalid input"))
  else if negb (isValidPhone phone)
  then ret (mkResponse 400 (Error "Phone number must be exactly 10 digits"))
  else find_or_create "2h" e name phone.

Definition api_history :=
  Server.api_history "Access Denied: No Token Provided" "Access Denied: Invalid Token".

(** The handler of [/api/get-recipe], behind the middleware. *)
Definition get_recipe (e : env) (dish : jsval) (user : claims) : async (response body) :=
  try_catch
    (if negb (truthy dish)
     then ret (mkResponse 400 (Error "Dish name required"))
     else
       result <- appGraph_invoke e [("dish_name", dish)] ;;
       doc <- new_RequestModel e (claim_phone user) dish (JStr "Gourmet")
                (read result "recipe") ;;
       newRequest <- save_request e doc ;;
       ret (mkResponse 200
              (Recipe (_id newRequest) dish (read result "recipe") (createdAt newRequest))))%async
    (ret (mkResponse 500 (Error "Something went wrong."))).

(** [app.post('/api/get-recipe', authenticateToken, ...)] *)
Definition api_get_recipe (e : env) (authHeader : option string) (dish : jsval)
  : async (response body) :=
  protected "Access Denied: No Token Provided" "Access Denied: Invalid Token"
    e authHeader (get_recipe e dish).

(** The routes of this revision. *)
Definition app (e : env) (req : request) : async (response body) :=
  match req with
  | PostLogin name phone => api_login e name phone
  | GetHistory authHeader => api_history e authHeader
  | PostGetRecipe authHeader dish => api_get_recipe e authHeader dish
  end.

End Guarded.

(** ** src/unnamed/part_000: categorize, then generate *)

Module TwoStage.

(** [RequestSchema]: no owner and no default category in this revision. *)
Record RecipeRequest : Type := mkRequest {
  _id : nat;
  dishName : option string;
  category : option string;
  recipe : option string;
  createdAt : Z
}.

Record world : Type := mkWorld {
  requests : list RecipeRequest;
  next_oid : nat;
  calls : list string
}.

Inductive body :=
| Error (error : string)
| History (docs : list RecipeRequest)
| Recipe (category_text recipe_text : jsval).   (* { category, recipe } *)

Definition async : Type -> Type := M world.

(** [llm.invoke([new HumanMessage(prompt)])], then [response.content]. *)
Definition model_call (e : env) (prompt : string) : async string :=
  fun w =>
    let w' := mkWorld (requests w) (next_oid w) (calls w ++ [prompt]) in
    match llm e prompt with
    | Completion text => (Ret text, w')
    | LlmError => (Throw, w')
    end.

Definition fresh_oid : async nat :=
  fun w => (Ret (next_oid w), mkWorld (requests w) (S (next_oid w)) (calls w)).

Definition new_RequestModel (e : env) (dish cat text : jsval)
  : async (option RecipeRequest) :=
  (oid <- fresh_oid ;;
   ret match cast_string dish, cast_string cat, cast_string text with
       | CastOk d, CastOk c, CastOk r => Some (mkRequest oid d c r (now e))
       | _, _, _ => None
       end)%async.

Definition save_request (e : env) (doc : option RecipeRequest) : async RecipeRequest :=
  fun w =>
    match doc with
    | None => (Throw, w)
    | Some r =>
        if save_ok e
        then (Ret r, mkWorld (requests w ++ [r]) (next_oid w) (calls w))
        else (Throw, w)
    end.

(** [RequestModel.find().sort({ createdAt: -1 }).limit(10)] *)
Definition find_latest (e : env) : async (list RecipeRequest) :=
  fun w =>
    if find_ok e
    then (Ret (firstn 10 (sort_desc createdAt (requests w))), w)
    else (Throw, w).

Definition categorize_prompt (dish : jsval) : string :=
  "Categorize the dish '" ++ to_js_string dish ++ "' into exactly one of these categories: Veg, Non-Veg, Fast Food, Drinks. Return ONLY the category name.".

Definition recipe_prompt (dish_name category : jsval) : string :=
  "The user wants to make '" ++ to_js_string dish_name ++ "' (" ++ to_js_string category ++ ").
  
  Please follow these strict formatting rules:
  1. **Language**: Use VERY SIMPLE English. Short sentences. No hard words.
  2. **Ingredients**: Provide them in a Markdown Table with two columns: " ++ dq ++ "Ingredient" ++ dq ++ " and " ++ dq ++ "Quantity" ++ dq ++ ".
  3. **Procedure**: Provide the steps as a numbered list. 
     - Bold the main action verbs (e.g., **Mix**, **Boil**, **Cut**).
     - Keep steps short and easy to read.

  Do not include any intro or outro text. Just the table and the steps.".

(** Node 2: categorization. *)
Definition categorizationNode (e : env) (state : object) : async object :=
  (let dish := read state "dish_name" in
   content <- model_call e (categorize_prompt dish) ;;
   ret [("category", JStr (trim content))])%async.

(** Node 3: recipe generation. *)
Definition recipeNode (e : env) (state : object) : async object :=
  (let dish_name := read state "dish_name" in
   let category := read state "category" in
   content <- model_call e (recipe_prompt dish_name category) ;;
   ret [("recipe", JStr content)])%async.

Definition graphState : list (string * channel) :=
  [ ("dish_name", {| value := fun x y => if truthy y then y else x; default := JNull |});
    ("category",  {| value := fun x y => if truthy y then y else x; default := JNull |});
    ("recipe",    {| value := fun x y => if truthy y then y else x; default := JNull |}) ].

(** START -> categorize -> generate_recipe -> END *)
Definition workflow (e : env) : list (object -> async object) :=
  [ categorizationNode e; recipeNode e ].

Definition appGraph_invoke (e : env) (inputs : object) : async object :=
  invoke graphState (workflow e) inputs.

(** [app.post('/api/get-recipe', ...)] *)
Definition api_get_recipe (e : env) (dish : jsval) : async (response body) :=
  try_catch
    (if negb (truthy dish)
     then ret (mkResponse 400 (Error "Dish name is required"))
     else
       result <- appGraph_invoke e [("dish_name", dish)] ;;
       doc <- new_RequestModel e (read result "dish_name") (read result "category")
                (read result "recipe") ;;
       _ <- save_request e doc ;;
       ret (mkResponse 200 (Recipe (read result "category") (read result "recipe"))))%async
    (ret (mkResponse 500 (Error "Something went wrong. Check server console."))).

(** [app.get('/api/history', ...)] *)
Definition api_history (e : env) : async (response body) :=
  try_catch
    (history <- find_latest e ;;
     ret (mkResponse 200 (History history)))%async
    (ret (mkResponse 500 (Error "Failed to fetch history"))).

End TwoStage.

(** ** Sample collaborators

    A token library, three models and a few stores on which the routes can
    be run. *)

Module Sample.

Definition asha : claims := mkClaims 0 "9876543210" "Asha".

Definition verify (token : string) : jwt_result :=
  if token =? "good" then Verified asha
  else if token =? "old" then Rejected TokenExpiredError
  else Rejected JsonWebTokenError.

Definition sign (payload : claims) (expiresIn : string) : string :=
  claim_phone payload ++ "/" ++ claim_name payload ++ "/" ++ expiresIn.

Definition blob : string :=
  "| Ingredient | Quantity |
|------------|----------|
| Paneer     | 200 g    |

1. **Cut** the paneer.
2. **Grill** it.".

(** Answers a categorize prompt with a label, and any other prompt with the
    recipe. *)
Definition chef (prompt : string) : llm_result :=
  if prefix "Categorize the dish" prompt
  then Completion "Veg"
  else Completion blob.

(** Refuses whatever it is asked. *)
Definition guard (prompt : string) : llm_result :=
  Completion Guarded.refusal_message.

(** A model that cannot be reached. *)
Definition down (prompt : string) : llm_result := LlmError.

(** Answers every prompt with one space. *)
Definition mute (prompt : string) : llm_result := Completion " ".

(** Fails on the generate prompt only. *)
Definition half (prompt : string) : llm_result :=
  if prefix "Categorize the dish" prompt
  then Completion "Veg"
  else LlmError.

Definition env_of (model : string -> llm_result) : env :=
  mkEnv 1700000000000 model sign verify true true.

Definition empty : Server.world := Server.mkWorld [] [] 0 [].

Definition empty2 : TwoStage.world := TwoStage.mkWorld [] 0 [].

(** Records of two owners, stored in no particular order of time. *)
Definition mixed : Server.world :=
  Server.mkWorld
    [ Server.mkUser 0 "Asha" "9876543210" 10; Server.mkUser 1 "Ravi" "9123456780" 20 ]
    [ Server.mkRequest 2 "9876543210" (Some "Dal") (Some "Gourmet") (Some "boil") 30;
      Server.mkRequest 3 "9123456780" (Some "Dosa") (Some "Gourmet") (Some "fry") 40;
      Server.mkRequest 4 "9876543210" (Some "Idli") (Some "Gourmet") (Some "steam") 50 ]
    5 [].

End Sample.

(** ** Notions in which further properties are stated *)

(** No space among the characters of [s]. *)
Definition no_space (s : string) : bool :=
  forallb (fun c => negb (c =? " ")%char) (list_ascii_of_string s).



(** [w'] holds all that [w] held, in the same order, and possibly more. *)
Definition grows (w w' : Server.world) : Prop :=
  (exists us, Server.users w' = Server.users w ++ us)
  /\ (exists rs, Server.requests w' = Server.requests w ++ rs)
  /\ (exists cs, Server.calls w' = Server.calls w ++ cs)
  /\ Server.next_oid w <= Server.next_oid w'.

(** The status codes the routes use. *)
Definition known_status (n : nat) : bool :=
  existsb (Nat.eqb n) [200; 400; 401; 403; 500].


(** Every stored record has an owner and the one category this server
    writes. *)
Definition owned_gourmet (w : Server.world) : Prop :=
  Forall (fun r => Server.userPhone r <> "" /\ Server.category r = Some "Gourmet")
         (Server.requests w).

(** Further stores and environments on which the routes can be run. *)
Module More.

(** Twelve records, created at twelve different times, stored in no order of
    time. *)
Definition dozen : TwoStage.world :=
  TwoStage.mkWorld
    (map (fun n => TwoStage.mkRequest n (Some "Dal") (Some "Veg") (Some "boil")
                     (Z.of_nat ((n * 7) mod 12)))
         (seq 0 12))
    12 [].


(** A store that does not answer. *)
Definition offline (model : string -> llm_result) : env :=
  mkEnv 1700000000000 model Sample.sign Sample.verify false false.

(** A model that answers with the empty text. *)
Definition silent (prompt : string) : llm_result := Completion "".

(** A token library whose [verify] reads the phone back from the ten
    characters with which the tokens of [Sample.sign] begin. *)
Definition verify (token : string) : jwt_result :=
  Verified (mkClaims 0 (substring 0 10 token) "").

Definition env_of (model : string -> llm_result) (time : Z) : env :=
  mkEnv time model Sample.sign verify true true.

End More.

(** The prompts stay folded when the routes are simplified. *)
Arguments Direct.prompt : simpl never.
Arguments Guarded.prompt : simpl never.
Arguments TwoStage.categorize_prompt : simpl never.
Arguments TwoStage.recipe_prompt : simpl never.
Arguments trim : simpl never.

(** Tactics that open the routes up to their awaited calls. *)
Ltac unfold_async :=
  unfold try_catch, bind, ret, throw.

Ltac unfold_graph :=
  unfold invoke, run_nodes; unfold_async;
  cbn [merge start map fst snd get read value default
       String.eqb Ascii.eqb Bool.eqb
       Guarded.graphState TwoStage.graphState].

Ltac unfold_guarded :=
  unfold Guarded.api_get_recipe, Server.protected, Guarded.get_recipe,
    Guarded.appGraph_invoke, Guarded.workflow, Guarded.recipeNode,
    Server.new_RequestModel, Server.save_request, Server.fresh_oid, Server.model_call.

Ltac unfold_direct :=
  unfold Direct.api_get_recipe, Server.protected, Direct.get_recipe,
    Server.new_RequestModel, Server.save_request, Server.fresh_oid, Server.model_call.

Ltac unfold_two_stage :=
  unfold TwoStage.api_get_recipe, TwoStage.appGraph_invoke, TwoStage.workflow,
    TwoStage.categorizationNode, TwoStage.recipeNode,
    TwoStage.new_RequestModel, TwoStage.save_request, TwoStage.fresh_oid,
    TwoStage.model_call.

(** * Properties *)

(** ** The JavaScript layer on a few inputs *)

Example falsy_values :
  map truthy [JUndefined; JNull; JBool false; JNum 0; JStr ""; JStr " "; JNum 7; JObj]
  = [false; false; false; false; false; true; true; true].
Proof. reflexivity. Qed.

Example trim_ascii :
  trim "  Veg
	" = "Veg" /\ trim " Fast Food " = "Fast Food" /\ trim "   " = "".
Proof. repeat split. Qed.

(** A no-break space (U+00A0) in front and an ideographic space (U+3000)
    behind are white space too. *)
Example trim_unicode :
  trim (String (ascii_of_nat 194) (String (ascii_of_nat 160) "Veg")
        ++ String (ascii_of_nat 227) (String (ascii_of_nat 128)
             (String (ascii_of_nat 128) EmptyString)))
  = "Veg".
Proof. reflexivity. Qed.

Example header_tokens :
  map Server.header_token
    [None; Some ""; Some "Bearer"; Some "Bearer "; Some "Bearer abc"; Some "abc";
     Some "Bearer  abc"]
  = [None; Some ""; None; Some ""; Some "abc"; None; Some ""].
Proof. reflexivity. Qed.

Example phones :
  map ten_digits ["9876543210"; "987654321"; "98765432100"; "98765 4321"; "98765x3210"]
  = [true; false; false; false; false].
Proof. reflexivity. Qed.

Example numbers_as_strings :
  map to_js_string [JNum 0; JNum 1234567890; JNum (-15); JBool true; JNull]
  = ["0"; "1234567890"; "-15"; "true"; "null"].
Proof. reflexivity. Qed.

(** ** Sorting *)

Section SortingFacts.
Context {A : Type} (key : A -> Z).

Lemma insert_desc_perm (x : A) (l : list A) :
  Permutation (x :: l) (insert_desc key x l).
Proof.
  induction l as [|y l IH]; simpl.
  - apply Permutation_refl.
  - destruct (key y <=? key x)%Z.
    + apply Permutation_refl.
    + eapply perm_trans; [apply perm_swap|]. now apply perm_skip.
Qed.

Lemma sort_desc_perm (l : list A) : Permutation l (sort_desc key l).
Proof.
  induction l as [|x l IH]; simpl.
  - constructor.
  - eapply perm_trans; [apply perm_skip, IH|]. apply insert_desc_perm.
Qed.

Lemma insert_desc_hd (x y : A) (l : list A) :
  (key x <= key y)%Z -> HdRel (desc key) y l -> HdRel (desc key) y (insert_desc key x l).
Proof.
  intros Hxy Hl. destruct l as [|z l]; simpl.
  - constructor. exact Hxy.
  - destruct (key z <=? key x)%Z; constructor.
    + exact Hxy.
    + inversion Hl; assumption.
Qed.

Lemma insert_desc_sorted (x : A) (l : list A) :
  Sorted (desc key) l -> Sorted (desc key) (insert_desc key x l).
Proof.
  induction 1 as [|y l Hs IH Hhd]; simpl.
  - repeat constructor.
  - destruct (key y <=? key x)%Z eqn:E.
    + constructor; [now constructor|]. constructor. unfold desc. lia.
    + constructor; [exact IH|]. apply insert_desc_hd; [lia|exact Hhd].
Qed.

Lemma sort_desc_sorted (l : list A) : Sorted (desc key) (sort_desc key l).
Proof.
  induction l as [|x l IH]; simpl.
  - constructor.
  - now apply insert_desc_sorted.
Qed.

Lemma desc_trans : Relations_1.Transitive (desc key).
Proof. intros x y z Hxy Hyz. unfold desc in *. lia. Qed.

Lemma sort_desc_strongly_sorted (l : list A) :
  StronglySorted (desc key) (sort_desc key l).
Proof. apply Sorted_StronglySorted; [apply desc_trans|apply sort_desc_sorted]. Qed.

Lemma firstn_strongly_sorted (n : nat) (l : list A) :
  StronglySorted (desc key) l -> StronglySorted (desc key) (firstn n l).
Proof.
  intros Hl. revert n. induction Hl as [|x l Hs IH Hall]; intros [|n]; simpl;
    try constructor.
  - apply IH.
  - rewrite Forall_forall in *. intros y Hy. apply Hall.
    rewrite <- (firstn_skipn n l). apply in_or_app. now left.
Qed.
End SortingFacts.

(** ** The history listing *)

Lemma filter_own (phone : string) (l : list Server.RecipeRequest) :
  Forall (fun r => Server.userPhone r = phone)
         (filter (fun r => Server.userPhone r =? phone) l).
Proof.
  apply Forall_forall. intros r Hr. apply filter_In in Hr.
  destruct Hr as [_ Hr]. now apply String.eqb_eq.
Qed.

(** C8.  For an authenticated caller and a store that answers, the history
    route of src/server.js (either revision: any pair of middleware messages)
    responds 200 with the caller's records and no others, newest first: every
    listed record has the caller's phone as [userPhone], the list is a
    rearrangement of exactly the stored records with that phone, and every
    record comes before all records created earlier.  The store is left as it
    was.  The listing of src/unnamed/part_000, whose records have no owner,
    is the ten newest records, newest first. *)
Theorem history_newest_first_own_only
    (no_token invalid_token : string) (e : env) (authHeader : option string)
    (user : claims) (w : Server.world) (wt : TwoStage.world) :
  Server.authenticateToken no_token invalid_token e authHeader = inr user ->
  find_ok e = true ->
  (exists docs,
      Server.api_history no_token invalid_token e authHeader w
      = (Ret (mkResponse 200 (Server.History docs)), w)
      /\ StronglySorted (desc Server.createdAt) docs
      /\ Forall (fun r => Server.userPhone r = claim_phone user) docs
      /\ Permutation
           (filter (fun r => Server.userPhone r =? claim_phone user) (Server.requests w))
           docs)
  /\ (exists docs,
         TwoStage.api_history e wt = (Ret (mkResponse 200 (TwoStage.History docs)), wt)
         /\ StronglySorted (desc TwoStage.createdAt) docs
         /\ docs = firstn 10 (sort_desc TwoStage.createdAt (TwoStage.requests wt))).
Proof.
  intros Hauth Hfind. split.
  - exists (sort_desc Server.createdAt
              (filter (fun r => Server.userPhone r =? claim_phone user) (Server.requests w))).
    repeat split.
    + unfold Server.api_history, Server.protected. rewrite Hauth.
      unfold try_catch, bind, Server.find_by_phone. rewrite Hfind. reflexivity.
    + apply sort_desc_strongly_sorted.
    + eapply Permutation_Forall; [apply sort_desc_perm|apply filter_own].
    + apply sort_desc_perm.
  - eexists. repeat split.
    + unfold TwoStage.api_history, try_catch, bind, TwoStage.find_latest.
      rewrite Hfind. reflexivity.
    + apply firstn_strongly_sorted, sort_desc_strongly_sorted.
Qed.

Example history_of_asha :
  Guarded.api_history (Sample.env_of Sample.chef) (Some "Bearer good") Sample.mixed
  = (Ret (mkResponse 200 (Server.History
       [ Server.mkRequest 4 "9876543210" (Some "Idli") (Some "Gourmet") (Some "steam") 50;
         Server.mkRequest 2 "9876543210" (Some "Dal") (Some "Gourmet") (Some "boil") 30 ])),
     Sample.mixed).
Proof. reflexivity. Qed.

Lemma history_newest_first_own_only_witness :
  exists docs,
    Guarded.api_history (Sample.env_of Sample.chef) (Some "Bearer good") Sample.mixed
    = (Ret (mkResponse 200 (Server.History docs)), Sample.mixed)
    /\ StronglySorted (desc Server.createdAt) docs
    /\ Forall (fun r => Server.userPhone r = "9876543210") docs.
Proof.
  destruct (history_newest_first_own_only
              "Access Denied: No Token Provided" "Access Denied: Invalid Token"
              (Sample.env_of Sample.chef) (Some "Bearer good") Sample.asha
              Sample.mixed Sample.empty2 eq_refl eq_refl)
    as [[docs (Hrun & Hsorted & Hown & _)] _].
  exists docs. repeat split; assumption.
Defined.

(** ** The token check *)

(** C7.  On every protected route of src/server.js (any handler behind the
    middleware, either revision's messages) the two ways a token check fails
    get different responses, and neither touches the store: with no token in
    the request (no Authorization header, or no non-empty second word in it)
    the response is 401 and the handler does not run; with a token that
    [jwt.verify] rejects, for a bad signature, an expiry or any other of its
    errors, the response is 403 and the handler does not run.  With a token
    that verifies, the handler starts on the store as the request found
    it. *)
Theorem token_failures_distinct
    (no_token invalid_token : string) (e : env) (authHeader : option string)
    (handler : claims -> Server.async (response Server.body)) (w : Server.world) :
  ((Server.header_token authHeader = None \/ Server.header_token authHeader = Some "") ->
     Server.authenticateToken no_token invalid_token e authHeader
     = inl (mkResponse 401 (Server.Error no_token))
     /\ Server.protected no_token invalid_token e authHeader handler w
        = (Ret (mkResponse 401 (Server.Error no_token)), w))
  /\ (forall (token : string) (err : jwt_error),
         Server.header_token authHeader = Some token ->
         token <> "" ->
         jwt_verify e token = Rejected err ->
         Server.authenticateToken no_token invalid_token e authHeader
         = inl (mkResponse 403 (Server.Error invalid_token))
         /\ Server.protected no_token invalid_token e authHeader handler w
            = (Ret (mkResponse 403 (Server.Error invalid_token)), w))
  /\ status (mkResponse 401 (Server.Error no_token))
     <> status (mkResponse 403 (Server.Error invalid_token))
  /\ (forall (token : string) (user : claims),
         Server.header_token authHeader = Some token ->
         token <> "" ->
         jwt_verify e token = Verified user ->
         Server.protected no_token invalid_token e authHeader handler w = handler user w).
Proof.
  split; [|split; [|split]].
  - intros [H|H]; unfold Server.protected, Server.authenticateToken;
      rewrite H; split; reflexivity.
  - intros token err Htok Hne Hrej.
    unfold Server.protected, Server.authenticateToken. rewrite Htok.
    apply String.eqb_neq in Hne. simpl. rewrite Hne. simpl. rewrite Hrej.
    split; reflexivity.
  - simpl. discriminate.
  - intros token user Htok Hne Hver.
    unfold Server.protected, Server.authenticateToken. rewrite Htok.
    apply String.eqb_neq in Hne. simpl. rewrite Hne. simpl. now rewrite Hver.
Qed.

Lemma token_failures_distinct_witness :
  Guarded.api_get_recipe (Sample.env_of Sample.chef) None (JStr "Dal") Sample.mixed
  = (Ret (mkResponse 401 (Server.Error "Access Denied: No Token Provided")), Sample.mixed)
  /\ Guarded.api_get_recipe (Sample.env_of Sample.chef) (Some "Bearer old") (JStr "Dal")
       Sample.mixed
     = (Ret (mkResponse 403 (Server.Error "Access Denied: Invalid Token")), Sample.mixed).
Proof.
  split.
  - apply (token_failures_distinct
             "Access Denied: No Token Provided" "Access Denied: Invalid Token"
             (Sample.env_of Sample.chef) None
             (Guarded.get_recipe (Sample.env_of Sample.chef) (JStr "Dal")) Sample.mixed).
    left. reflexivity.
  - apply (token_failures_distinct
             "Access Denied: No Token Provided" "Access Denied: Invalid Token"
             (Sample.env_of Sample.chef) (Some "Bearer old")
             (Guarded.get_recipe (Sample.env_of Sample.chef) (JStr "Dal")) Sample.mixed)
      with (token := "old") (err := TokenExpiredError).
    + reflexivity.
    + discriminate.
    + reflexivity.
Defined.

(** ** Merging a stage's update into the state *)

(** An update that holds the empty string for [category], a value that is
    not null, leaves the earlier category in place; so "a non-null value
    replaces the prior one" fails for both graphs.  The categorize stage
    returns that update when the model answers with white space only, and
    the run then ends with [category] still null. *)
Lemma empty_string_update_is_dropped :
  (get "category" [("category", JStr "")] = Some (JStr "")
   /\ JStr "" <> JNull
   /\ read (merge TwoStage.graphState
              [("dish_name", JStr "Paneer Tikka"); ("category", JStr "Veg"); ("recipe", JNull)]
              [("category", JStr "")])
           "category"
      = JStr "Veg")
  /\ ~ (forall (st u : object) (k : string) (y : jsval),
          In k (map fst TwoStage.graphState) ->
          get k u = Some y -> y <> JNull ->
          read (merge TwoStage.graphState st u) k = y)
  /\ ~ (forall (st u : object) (k : string) (y : jsval),
          In k (map fst Guarded.graphState) ->
          get k u = Some y -> y <> JNull ->
          read (merge Guarded.graphState st u) k = y)
  /\ (fst (TwoStage.categorizationNode (Sample.env_of Sample.mute)
             [("dish_name", JStr "Paneer Tikka"); ("category", JNull); ("recipe", JNull)]
             Sample.empty2)
      = Ret [("category", JStr "")]
      /\ fst (TwoStage.appGraph_invoke (Sample.env_of Sample.mute)
                [("dish_name", JStr "Paneer Tikka")] Sample.empty2)
         = Ret [("dish_name", JStr "Paneer Tikka"); ("category", JNull); ("recipe", JStr " ")]).
Proof.
  split; [|split; [|split]].
  - repeat split; [discriminate].
  - intros H.
    specialize (H [("dish_name", JNull); ("category", JStr "Veg"); ("recipe", JNull)]
                  [("category", JStr "")] "category" (JStr "")).
    simpl in H. discriminate H; auto. discriminate.
  - intros H.
    specialize (H [("dish_name", JNull); ("recipe", JStr "Dal")]
                  [("recipe", JStr "")] "recipe" (JStr "")).
    simpl in H. discriminate H; auto. discriminate.
  - split; reflexivity.
Qed.

(** C1, as the code has it.  In both graphs, for every channel, state and
    update (the input object or the object a stage returned): the last
    truthy value wins.  A written value that is truthy (a non-empty string,
    among the values a stage writes) replaces the channel's value; a written
    value that is falsy (null, undefined, the empty string) and a key the
    update does not hold both leave the channel's value untouched.  Every
    stage of a run is merged in this way, and a stage that rejects ends the
    run. *)
Theorem merge_last_truthy_wins (st u : object) (k : string) :
  (In k ["dish_name"; "category"; "recipe"] ->
     read (merge TwoStage.graphState st u) k
     = match get k u with
       | Some y => if truthy y then y else read st k
       | None => read st k
       end)
  /\ (In k ["dish_name"; "recipe"] ->
        read (merge Guarded.graphState st u) k
        = match get k u with
          | Some y => if truthy y then y else read st k
          | None => read st k
          end)
  /\ (forall (S : Type) (channels : list (string * channel))
             (node : object -> M S object) (rest : list (object -> M S object)) (s : S),
         run_nodes channels (node :: rest) st s
         = match node st s with
           | (Ret upd, s') => run_nodes channels rest (merge channels st upd) s'
           | (Throw, s') => (Throw, s')
           end).
Proof.
  split; [|split].
  - intros [<-|[<-|[<-|[]]]]; unfold read at 1; simpl; destruct (get _ u); reflexivity.
  - intros [<-|[<-|[]]]; unfold read at 1; simpl; destruct (get _ u); reflexivity.
  - reflexivity.
Qed.

Lemma merge_last_truthy_wins_witness :
  read (merge TwoStage.graphState
          [("dish_name", JStr "Paneer Tikka"); ("category", JStr "Veg"); ("recipe", JNull)]
          [("category", JStr ""); ("recipe", JStr Sample.blob)]) "category" = JStr "Veg"
  /\ read (merge Guarded.graphState
             [("dish_name", JStr "Dal"); ("recipe", JNull)]
             [("recipe", JStr Sample.blob)]) "recipe" = JStr Sample.blob.
Proof.
  split.
  - apply (merge_last_truthy_wins
             [("dish_name", JStr "Paneer Tikka"); ("category", JStr "Veg"); ("recipe", JNull)]
             [("category", JStr ""); ("recipe", JStr Sample.blob)] "category").
    simpl. auto.
  - apply (merge_last_truthy_wins
             [("dish_name", JStr "Dal"); ("recipe", JNull)]
             [("recipe", JStr Sample.blob)] "recipe").
    simpl. auto.
Defined.

(** ** Running the two-stage graph *)

Lemma truthy_str (s : string) : s <> "" -> truthy (JStr s) = true.
Proof. intros H. simpl. apply String.eqb_neq in H. now rewrite H. Qed.

Lemma calls_twice {A : Type} (l : list A) (a b : A) : (l ++ [a]) ++ [b] = l ++ [a; b].
Proof. now rewrite <- app_assoc. Qed.

(** C2.  In the two-stage graph of src/unnamed/part_000: when the model
    answers the categorize prompt with a text whose trimmed form is not
    empty, and the generate prompt (built from the dish and that trimmed
    category) with a non-empty blob, the run on a non-empty dish name returns
    the dish, the trimmed category and the blob verbatim, and the model has
    been called exactly twice: first with the categorize prompt, then with
    the generate prompt.  With the dish "Paneer Tikka" and the answer "Veg"
    this is the run of the claim. *)
Theorem two_stage_run (e : env) (dish raw blob : string) (w : TwoStage.world) :
  dish <> "" -> trim raw <> "" -> blob <> "" ->
  llm e (TwoStage.categorize_prompt (JStr dish)) = Completion raw ->
  llm e (TwoStage.recipe_prompt (JStr dish) (JStr (trim raw))) = Completion blob ->
  TwoStage.appGraph_invoke e [("dish_name", JStr dish)] w
  = (Ret [("dish_name", JStr dish); ("category", JStr (trim raw)); ("recipe", JStr blob)],
     TwoStage.mkWorld (TwoStage.requests w) (TwoStage.next_oid w)
       (TwoStage.calls w
        ++ [TwoStage.categorize_prompt (JStr dish);
            TwoStage.recipe_prompt (JStr dish) (JStr (trim raw))])).
Proof.
  intros Hdish Hcat Hblob Hllm1 Hllm2.
  apply truthy_str in Hdish, Hcat, Hblob.
  unfold TwoStage.appGraph_invoke, invoke, TwoStage.workflow, run_nodes, bind, ret.
  unfold TwoStage.categorizationNode, TwoStage.recipeNode, bind, ret, TwoStage.model_call.
  cbn [merge start map fst snd TwoStage.graphState get read value default String.eqb
       Ascii.eqb Bool.eqb].
  rewrite Hdish. cbn [read get String.eqb Ascii.eqb Bool.eqb]. rewrite Hllm1.
  cbn [merge start map fst snd TwoStage.graphState get read value default String.eqb
       Ascii.eqb Bool.eqb TwoStage.requests TwoStage.next_oid TwoStage.calls].
  rewrite Hcat. rewrite Hllm2.
  cbn [merge start map fst snd TwoStage.graphState get read value default String.eqb
       Ascii.eqb Bool.eqb TwoStage.requests TwoStage.next_oid TwoStage.calls].
  rewrite Hblob, calls_twice. reflexivity.
Qed.

Lemma two_stage_run_witness :
  TwoStage.appGraph_invoke (Sample.env_of Sample.chef)
    [("dish_name", JStr "Paneer Tikka")] Sample.empty2
  = (Ret [("dish_name", JStr "Paneer Tikka"); ("category", JStr "Veg");
          ("recipe", JStr Sample.blob)],
     TwoStage.mkWorld [] 0
       [TwoStage.categorize_prompt (JStr "Paneer Tikka");
        TwoStage.recipe_prompt (JStr "Paneer Tikka") (JStr "Veg")]).
Proof.
  apply (two_stage_run (Sample.env_of Sample.chef) "Paneer Tikka" "Veg" Sample.blob
           Sample.empty2).
  - discriminate.
  - vm_compute. discriminate.
  - vm_compute. discriminate.
  - reflexivity.
  - reflexivity.
Defined.

(** ** The recipe routes *)

(** The one-node graph on a truthy dish whose prompt the model answers with
    a non-empty text. *)
Lemma guarded_invoke_completion (e : env) (dish : jsval) (text : string) (w : Server.world) :
  truthy dish = true -> text <> "" ->
  llm e (Guarded.prompt dish) = Completion text ->
  Guarded.appGraph_invoke e [("dish_name", dish)] w
  = (Ret [("dish_name", dish); ("recipe", JStr text)],
     Server.mkWorld (Server.users w) (Server.requests w) (Server.next_oid w)
       (Server.calls w ++ [Guarded.prompt dish])).
Proof.
  intros Hdish Htext Hllm. apply truthy_str in Htext.
  unfold_guarded. unfold_graph.
  rewrite Hdish. cbn [read get String.eqb Ascii.eqb Bool.eqb]. rewrite Hllm.
  unfold_graph. rewrite Htext. reflexivity.
Qed.

(** The guarded route on a non-empty dish string, for an authenticated
    caller with a phone, a model that answers with a non-empty text and a
    store that accepts the write. *)
Lemma guarded_get_recipe_completion
    (e : env) (authHeader : option string) (user : claims) (dish text : string)
    (w : Server.world) :
  Guarded.authenticateToken e authHeader = inr user ->
  claim_phone user <> "" -> dish <> "" -> text <> "" ->
  llm e (Guarded.prompt (JStr dish)) = Completion text ->
  save_ok e = true ->
  Guarded.api_get_recipe e authHeader (JStr dish) w
  = (Ret (mkResponse 200
            (Server.Recipe (Server.next_oid w) (JStr dish) (JStr text) (now e))),
     Server.mkWorld (Server.users w)
       (Server.requests w
        ++ [Server.mkRequest (Server.next_oid w) (claim_phone user) (Some dish)
              (Some "Gourmet") (Some text) (now e)])
       (S (Server.next_oid w))
       (Server.calls w ++ [Guarded.prompt (JStr dish)])).
Proof.
  intros Hauth Hphone Hdish Htext Hllm Hsave.
  pose proof (guarded_invoke_completion e (JStr dish) text w
                (truthy_str dish Hdish) Htext Hllm) as Hrun.
  apply String.eqb_neq in Hphone.
  unfold Guarded.api_get_recipe, Server.protected.
  unfold Guarded.authenticateToken in Hauth. rewrite Hauth.
  unfold Guarded.get_recipe. rewrite (truthy_str dish Hdish).
  unfold_async. cbn [negb]. rewrite Hrun.
  unfold Server.new_RequestModel, Server.save_request, Server.fresh_oid.
  unfold_async.
  cbn [read get String.eqb Ascii.eqb Bool.eqb cast_string to_js_string
       Server.users Server.requests Server.next_oid Server.calls].
  rewrite Hphone, Hsave. reflexivity.
Qed.

(** C3.  In the guarded one-stage revision: when the model answers the
    prompt built from a (non-food, non-empty) dish string with the fixed
    refusal, the run of the graph returns exactly that refusal as [recipe],
    and the route, for an authenticated caller with a phone and a store that
    accepts the write, responds 200 with the refusal as recipe and has
    appended one record that holds it.  The refusal is handled as any other
    completion. *)
Theorem refusal_is_a_completion
    (e : env) (authHeader : option string) (user : claims) (dish : string)
    (w : Server.world) :
  Guarded.authenticateToken e authHeader = inr user ->
  claim_phone user <> "" -> dish <> "" ->
  llm e (Guarded.prompt (JStr dish)) = Completion Guarded.refusal_message ->
  save_ok e = true ->
  Guarded.appGraph_invoke e [("dish_name", JStr dish)] w
  = (Ret [("dish_name", JStr dish); ("recipe", JStr Guarded.refusal_message)],
     Server.mkWorld (Server.users w) (Server.requests w) (Server.next_oid w)
       (Server.calls w ++ [Guarded.prompt (JStr dish)]))
  /\ Guarded.api_get_recipe e authHeader (JStr dish) w
     = (Ret (mkResponse 200
               (Server.Recipe (Server.next_oid w) (JStr dish)
                  (JStr Guarded.refusal_message) (now e))),
        Server.mkWorld (Server.users w)
          (Server.requests w
           ++ [Server.mkRequest (Server.next_oid w) (claim_phone user) (Some dish)
                 (Some "Gourmet") (Some Guarded.refusal_message) (now e)])
          (S (Server.next_oid w))
          (Server.calls w ++ [Guarded.prompt (JStr dish)])).
Proof.
  intros Hauth Hphone Hdish Hllm Hsave.
  assert (Hne : Guarded.refusal_message <> "") by discriminate.
  split.
  - apply guarded_invoke_completion; auto using truthy_str.
  - now apply guarded_get_recipe_completion.
Qed.

Lemma refusal_is_a_completion_witness :
  Guarded.api_get_recipe (Sample.env_of Sample.guard) (Some "Bearer good")
    (JStr "how do I pick a lock") Sample.empty
  = (Ret (mkResponse 200
            (Server.Recipe 0 (JStr "how do I pick a lock")
               (JStr Guarded.refusal_message) 1700000000000)),
     Server.mkWorld []
       [Server.mkRequest 0 "9876543210" (Some "how do I pick a lock") (Some "Gourmet")
          (Some Guarded.refusal_message) 1700000000000]
       1 [Guarded.prompt (JStr "how do I pick a lock")]).
Proof.
  apply (refusal_is_a_completion (Sample.env_of Sample.guard) (Some "Bearer good")
           Sample.asha "how do I pick a lock" Sample.empty).
  - reflexivity.
  - discriminate.
  - discriminate.
  - reflexivity.
  - reflexivity.
Defined.

(** *** What each handler does on a truthy dish, case by case *)

Lemma two_stage_get_recipe_cases (e : env) (dish : jsval) (w : TwoStage.world) :
  truthy dish = true ->
  TwoStage.api_get_recipe e dish w
  = let failed := mkResponse 500 (TwoStage.Error "Something went wrong. Check server console.") in
    let p1 := TwoStage.categorize_prompt dish in
    match llm e p1 with
    | LlmError =>
        (Ret failed,
         TwoStage.mkWorld (TwoStage.requests w) (TwoStage.next_oid w) (TwoStage.calls w ++ [p1]))
    | Completion raw =>
        let c := if truthy (JStr (trim raw)) then JStr (trim raw) else JNull in
        let p2 := TwoStage.recipe_prompt dish c in
        match llm e p2 with
        | LlmError =>
            (Ret failed,
             TwoStage.mkWorld (TwoStage.requests w) (TwoStage.next_oid w)
               (TwoStage.calls w ++ [p1; p2]))
        | Completion blob =>
            let r := if truthy (JStr blob) then JStr blob else JNull in
            match cast_string dish, cast_string c, cast_string r with
            | CastOk d', CastOk c', CastOk r' =>
                if save_ok e
                then (Ret (mkResponse 200 (TwoStage.Recipe c r)),
                      TwoStage.mkWorld
                        (TwoStage.requests w
                         ++ [TwoStage.mkRequest (TwoStage.next_oid w) d' c' r' (now e)])
                        (S (TwoStage.next_oid w)) (TwoStage.calls w ++ [p1; p2]))
                else (Ret failed,
                      TwoStage.mkWorld (TwoStage.requests w) (S (TwoStage.next_oid w))
                        (TwoStage.calls w ++ [p1; p2]))
            | _, _, _ =>
                (Ret failed,
                 TwoStage.mkWorld (TwoStage.requests w) (S (TwoStage.next_oid w))
                   (TwoStage.calls w ++ [p1; p2]))
            end
        end
    end.
Proof.
  intros Hdish. cbv zeta.
  unfold_two_stage. rewrite Hdish. cbn [negb]. unfold_graph. rewrite Hdish.
  cbn [read get String.eqb Ascii.eqb Bool.eqb].
  destruct (llm e (TwoStage.categorize_prompt dish)) as [raw|]; [|reflexivity].
  unfold_graph. cbn [TwoStage.requests TwoStage.next_oid TwoStage.calls].
  rewrite calls_twice.
  destruct (llm e (TwoStage.recipe_prompt dish _)) as [blob|]; [|reflexivity].
  unfold_graph. cbn [TwoStage.requests TwoStage.next_oid TwoStage.calls].
  destruct (cast_string dish) as [d'|]; [|reflexivity].
  destruct (cast_string (if truthy (JStr (trim raw)) then _ else _)) as [c'|]; [|reflexivity].
  destruct (cast_string (if truthy (JStr blob) then _ else _)) as [r'|]; [|reflexivity].
  destruct (save_ok e); reflexivity.
Qed.

Lemma guarded_get_recipe_cases (e : env) (dish : jsval) (user : claims) (w : Server.world) :
  truthy dish = true ->
  Guarded.get_recipe e dish user w
  = let failed := mkResponse 500 (Server.Error "Something went wrong.") in
    let p := Guarded.prompt dish in
    let logged := Server.calls w ++ [p] in
    match llm e p with
    | LlmError =>
        (Ret failed,
         Server.mkWorld (Server.users w) (Server.requests w) (Server.next_oid w) logged)
    | Completion text =>
        let r := if truthy (JStr text) then JStr text else JNull in
        match cast_string dish, cast_string r with
        | CastOk d', CastOk r' =>
            if negb (claim_phone user =? "") && save_ok e
            then (Ret (mkResponse 200 (Server.Recipe (Server.next_oid w) dish r (now e))),
                  Server.mkWorld (Server.users w)
                    (Server.requests w
                     ++ [Server.mkRequest (Server.next_oid w) (claim_phone user) d'
                           (Some "Gourmet") r' (now e)])
                    (S (Server.next_oid w)) logged)
            else (Ret failed,
                  Server.mkWorld (Server.users w) (Server.requests w)
                    (S (Server.next_oid w)) logged)
        | _, _ =>
            (Ret failed,
             Server.mkWorld (Server.users w) (Server.requests w)
               (S (Server.next_oid w)) logged)
        end
    end.
Proof.
  intros Hdish. cbv zeta.
  unfold_guarded. rewrite Hdish. cbn [negb]. unfold_graph. rewrite Hdish.
  cbn [read get String.eqb Ascii.eqb Bool.eqb].
  destruct (llm e (Guarded.prompt dish)) as [text|]; [|reflexivity].
  unfold_graph. cbn [Server.users Server.requests Server.next_oid Server.calls].
  destruct (cast_string dish) as [d'|]; [|reflexivity].
  cbn [cast_string to_js_string].
  destruct (cast_string (if truthy (JStr text) then _ else _)) as [r'|]; [|reflexivity].
  destruct (claim_phone user =? ""); [reflexivity|].
  destruct (save_ok e); reflexivity.
Qed.

Lemma direct_get_recipe_cases (e : env) (dish : jsval) (user : claims) (w : Server.world) :
  truthy dish = true ->
  Direct.get_recipe e dish user w
  = let failed := mkResponse 500 (Server.Error "Chef is busy (Server Error)") in
    let p := Direct.prompt dish in
    let logged := Server.calls w ++ [p] in
    match llm e p with
    | LlmError =>
        (Ret failed,
         Server.mkWorld (Server.users w) (Server.requests w) (Server.next_oid w) logged)
    | Completion text =>
        match cast_string dish with
        | CastOk d' =>
            if negb (claim_phone user =? "") && save_ok e
            then (Ret (mkResponse 200
                         (Server.Recipe (Server.next_oid w) dish (JStr text) (now e))),
                  Server.mkWorld (Server.users w)
                    (Server.requests w
                     ++ [Server.mkRequest (Server.next_oid w) (claim_phone user) d'
                           (Some "Gourmet") (Some text) (now e)])
                    (S (Server.next_oid w)) logged)
            else (Ret failed,
                  Server.mkWorld (Server.users w) (Server.requests w)
                    (S (Server.next_oid w)) logged)
        | CastError =>
            (Ret failed,
             Server.mkWorld (Server.users w) (Server.requests w)
               (S (Server.next_oid w)) logged)
        end
    end.
Proof.
  intros Hdish. cbv zeta.
  unfold_direct. rewrite Hdish. cbn [negb]. unfold_async.
  destruct (llm e (Direct.prompt dish)) as [text|]; [|reflexivity].
  cbn [Server.users Server.requests Server.next_oid Server.calls].
  destruct (cast_string dish) as [d'|]; [|reflexivity].
  cbn [cast_string to_js_string].
  destruct (claim_phone user =? ""); [reflexivity|].
  destruct (save_ok e); reflexivity.
Qed.

(** On a falsy dish each handler answers 400 before anything else. *)
Lemma falsy_dish_rejected (e : env) (dish : jsval) (user : claims)
    (w : Server.world) (wt : TwoStage.world) :
  truthy dish = false ->
  Direct.get_recipe e dish user w
  = (Ret (mkResponse 400 (Server.Error "Dish name required")), w)
  /\ Guarded.get_recipe e dish user w
     = (Ret (mkResponse 400 (Server.Error "Dish name required")), w)
  /\ TwoStage.api_get_recipe e dish wt
     = (Ret (mkResponse 400 (TwoStage.Error "Dish name is required")), wt).
Proof.
  intros Hdish.
  unfold Direct.get_recipe, Guarded.get_recipe, TwoStage.api_get_recipe.
  rewrite Hdish. repeat split.
Qed.

(** A request with a token that verifies reaches the handler, whatever the
    messages of the middleware. *)
Lemma verified_token_passes
    (no_token invalid_token : string) (e : env) (authHeader : option string)
    (token : string) (user : claims)
    (handler : claims -> Server.async (response Server.body)) (w : Server.world) :
  Server.header_token authHeader = Some token ->
  token <> "" ->
  jwt_verify e token = Verified user ->
  Server.authenticateToken no_token invalid_token e authHeader = inr user
  /\ Server.protected no_token invalid_token e authHeader handler w = handler user w.
Proof.
  intros Htok Hne Hver. apply String.eqb_neq in Hne.
  unfold Server.protected, Server.authenticateToken.
  rewrite Htok. simpl. rewrite Hne. simpl. rewrite Hver. split; reflexivity.
Qed.

(** A request the middleware stops leaves the store as it was. *)
Lemma protected_frame
    (no_token invalid_token : string) (e : env) (authHeader : option string)
    (handler : claims -> Server.async (response Server.body)) (w : Server.world) :
  (exists r, Server.authenticateToken no_token invalid_token e authHeader = inl r
             /\ Server.protected no_token invalid_token e authHeader handler w = (Ret r, w))
  \/ (exists user, Server.authenticateToken no_token invalid_token e authHeader = inr user
                   /\ Server.protected no_token invalid_token e authHeader handler w
                      = handler user w).
Proof.
  unfold Server.protected.
  destruct (Server.authenticateToken no_token invalid_token e authHeader) as [r|user].
  - left. exists r. split; reflexivity.
  - right. exists user. split; reflexivity.
Qed.

(** ** Validation of the dish *)

(** A dish of one space is blank, yet every revision serves it: the
    response is 200, the model has been called and a record has been
    written.  And an empty dish sent without a token is answered 401, not
    400. *)
Lemma blank_dish_is_served :
  trim " " = ""
  /\ Direct.api_get_recipe (Sample.env_of Sample.chef) (Some "Bearer good") (JStr " ")
       Sample.empty
     = (Ret (mkResponse 200 (Server.Recipe 0 (JStr " ") (JStr Sample.blob) 1700000000000)),
        Server.mkWorld []
          [Server.mkRequest 0 "9876543210" (Some " ") (Some "Gourmet") (Some Sample.blob)
             1700000000000]
          1 [Direct.prompt (JStr " ")])
  /\ Guarded.api_get_recipe (Sample.env_of Sample.chef) (Some "Bearer good") (JStr " ")
       Sample.empty
     = (Ret (mkResponse 200 (Server.Recipe 0 (JStr " ") (JStr Sample.blob) 1700000000000)),
        Server.mkWorld []
          [Server.mkRequest 0 "9876543210" (Some " ") (Some "Gourmet") (Some Sample.blob)
             1700000000000]
          1 [Guarded.prompt (JStr " ")])
  /\ TwoStage.api_get_recipe (Sample.env_of Sample.chef) (JStr " ") Sample.empty2
     = (Ret (mkResponse 200 (TwoStage.Recipe (JStr "Veg") (JStr Sample.blob))),
        TwoStage.mkWorld
          [TwoStage.mkRequest 0 (Some " ") (Some "Veg") (Some Sample.blob) 1700000000000]
          1 [TwoStage.categorize_prompt (JStr " ");
             TwoStage.recipe_prompt (JStr " ") (JStr "Veg")])
  /\ Guarded.api_get_recipe (Sample.env_of Sample.chef) None (JStr "") Sample.empty
     = (Ret (mkResponse 401 (Server.Error "Access Denied: No Token Provided")), Sample.empty).
Proof. repeat split. Qed.

(** C5, as the code has it.  For every request to the recipe route whose
    dish is falsy (missing, null, false, 0 or the empty string): the model
    is not called and nothing is written, in every revision and whatever the
    token; and the response is 400 in the revision without tokens, and in
    the two revisions of src/server.js once the token has been verified. *)
Theorem falsy_dish_is_rejected
    (e : env) (authHeader : option string) (dish : jsval)
    (w : Server.world) (wt : TwoStage.world) :
  truthy dish = false ->
  TwoStage.api_get_recipe e dish wt
  = (Ret (mkResponse 400 (TwoStage.Error "Dish name is required")), wt)
  /\ snd (Direct.api_get_recipe e authHeader dish w) = w
  /\ snd (Guarded.api_get_recipe e authHeader dish w) = w
  /\ (forall (token : string) (user : claims),
         Server.header_token authHeader = Some token -> token <> "" ->
         jwt_verify e token = Verified user ->
         Direct.api_get_recipe e authHeader dish w
         = (Ret (mkResponse 400 (Server.Error "Dish name required")), w)
         /\ Guarded.api_get_recipe e authHeader dish w
            = (Ret (mkResponse 400 (Server.Error "Dish name required")), w)).
Proof.
  intros Hdish. split; [|split; [|split]].
  - apply (falsy_dish_rejected e dish Sample.asha w wt Hdish).
  - unfold Direct.api_get_recipe.
    destruct (protected_frame "Access Denied" "Invalid Token" e authHeader
                (Direct.get_recipe e dish) w) as [(r & _ & ->)|(user & _ & ->)].
    + reflexivity.
    + now rewrite (proj1 (falsy_dish_rejected e dish user w wt Hdish)).
  - unfold Guarded.api_get_recipe.
    destruct (protected_frame "Access Denied: No Token Provided"
                "Access Denied: Invalid Token" e authHeader
                (Guarded.get_recipe e dish) w) as [(r & _ & ->)|(user & _ & ->)].
    + reflexivity.
    + now rewrite (proj1 (proj2 (falsy_dish_rejected e dish user w wt Hdish))).
  - intros token user Htok Hne Hver.
    unfold Direct.api_get_recipe, Guarded.api_get_recipe.
    rewrite (proj2 (verified_token_passes _ _ e authHeader token user _ w Htok Hne Hver)).
    rewrite (proj2 (verified_token_passes _ _ e authHeader token user _ w Htok Hne Hver)).
    split; apply (falsy_dish_rejected e dish user w wt Hdish).
Qed.

Lemma falsy_dish_is_rejected_witness :
  TwoStage.api_get_recipe (Sample.env_of Sample.chef) (JStr "") Sample.empty2
  = (Ret (mkResponse 400 (TwoStage.Error "Dish name is required")), Sample.empty2)
  /\ Guarded.api_get_recipe (Sample.env_of Sample.chef) (Some "Bearer good") JUndefined
       Sample.mixed
     = (Ret (mkResponse 400 (Server.Error "Dish name required")), Sample.mixed).
Proof.
  split.
  - apply (falsy_dish_is_rejected (Sample.env_of Sample.chef) None (JStr "")
             Sample.empty Sample.empty2).
    reflexivity.
  - apply (falsy_dish_is_rejected (Sample.env_of Sample.chef) (Some "Bearer good")
             JUndefined Sample.mixed Sample.empty2 eq_refl)
      with (token := "good") (user := Sample.asha).
    + reflexivity.
    + discriminate.
    + reflexivity.
Defined.

(** C9.  A dish that is a non-empty string of white space only is not
    rejected by any revision.  For a caller whose token verifies (where the
    revision asks for one): the response is not the 400, and the model is
    called with the prompt built from that dish, whatever it then answers;
    and when the model answers every prompt of the run, the caller has a
    phone and the store accepts the write, the response is 200 and one
    record with that dish as [dishName] has been appended. *)
Theorem whitespace_dish_is_served
    (e : env) (authHeader : option string) (token : string) (user : claims)
    (dish : string) (w : Server.world) (wt : TwoStage.world) :
  dish <> "" -> trim dish = "" ->
  Server.header_token authHeader = Some token -> token <> "" ->
  jwt_verify e token = Verified user ->
  (* the request passes validation and reaches the model *)
  ((exists resp w',
       Direct.api_get_recipe e authHeader (JStr dish) w = (Ret resp, w')
       /\ status resp <> 400
       /\ Server.calls w' = Server.calls w ++ [Direct.prompt (JStr dish)])
   /\ (exists resp w',
          Guarded.api_get_recipe e authHeader (JStr dish) w = (Ret resp, w')
          /\ status resp <> 400
          /\ Server.calls w' = Server.calls w ++ [Guarded.prompt (JStr dish)])
   /\ (exists resp w' later,
          TwoStage.api_get_recipe e (JStr dish) wt = (Ret resp, w')
          /\ status resp <> 400
          /\ TwoStage.calls w'
             = TwoStage.calls wt ++ TwoStage.categorize_prompt (JStr dish) :: later))
  (* and is served like any other dish *)
  /\ (claim_phone user <> "" -> save_ok e = true ->
      (forall text,
          llm e (Direct.prompt (JStr dish)) = Completion text ->
          exists resp w' r,
            Direct.api_get_recipe e authHeader (JStr dish) w = (Ret resp, w')
            /\ status resp = 200
            /\ Server.requests w' = Server.requests w ++ [r]
            /\ Server.dishName r = Some dish)
      /\ (forall text,
             llm e (Guarded.prompt (JStr dish)) = Completion text ->
             exists resp w' r,
               Guarded.api_get_recipe e authHeader (JStr dish) w = (Ret resp, w')
               /\ status resp = 200
               /\ Server.requests w' = Server.requests w ++ [r]
               /\ Server.dishName r = Some dish))
  /\ (save_ok e = true ->
      forall raw blob,
        llm e (TwoStage.categorize_prompt (JStr dish)) = Completion raw ->
        llm e (TwoStage.recipe_prompt (JStr dish)
                 (if truthy (JStr (trim raw)) then JStr (trim raw) else JNull))
        = Completion blob ->
        exists resp w' r,
          TwoStage.api_get_recipe e (JStr dish) wt = (Ret resp, w')
          /\ status resp = 200
          /\ TwoStage.requests w' = TwoStage.requests wt ++ [r]
          /\ TwoStage.dishName r = Some dish).
Proof.
  intros Hdish _ Htok Hne Hver.
  pose proof (truthy_str dish Hdish) as Htruthy.
  assert (Hd : Direct.api_get_recipe e authHeader (JStr dish) w
               = Direct.get_recipe e (JStr dish) user w).
  { unfold Direct.api_get_recipe.
    apply (verified_token_passes _ _ e authHeader token user _ w Htok Hne Hver). }
  assert (Hg : Guarded.api_get_recipe e authHeader (JStr dish) w
               = Guarded.get_recipe e (JStr dish) user w).
  { unfold Guarded.api_get_recipe.
    apply (verified_token_passes _ _ e authHeader token user _ w Htok Hne Hver). }
  rewrite Hd, Hg.
  rewrite (direct_get_recipe_cases e (JStr dish) user w Htruthy).
  rewrite (guarded_get_recipe_cases e (JStr dish) user w Htruthy).
  rewrite (two_stage_get_recipe_cases e (JStr dish) wt Htruthy).
  cbv zeta. cbn [cast_string to_js_string].
  split; [split; [|split]|split].
  - destruct (llm e (Direct.prompt (JStr dish))) as [text|].
    + destruct (negb (claim_phone user =? "") && save_ok e);
        do 2 eexists; (split; [reflexivity|split; [simpl; discriminate|reflexivity]]).
    + do 2 eexists. split; [reflexivity|split; [simpl; discriminate|reflexivity]].
  - destruct (llm e (Guarded.prompt (JStr dish))) as [text|].
    + destruct (truthy (JStr text));
        cbn [cast_string to_js_string];
        destruct (negb (claim_phone user =? "") && save_ok e);
        do 2 eexists; (split; [reflexivity|split; [simpl; discriminate|reflexivity]]).
    + do 2 eexists. split; [reflexivity|split; [simpl; discriminate|reflexivity]].
  - destruct (llm e (TwoStage.categorize_prompt (JStr dish))) as [raw|].
    + destruct (llm e (TwoStage.recipe_prompt (JStr dish) _)) as [blob|].
      * destruct (truthy (JStr (trim raw))), (truthy (JStr blob));
          cbn [cast_string to_js_string];
          destruct (save_ok e);
          do 3 eexists; (split; [reflexivity|split; [simpl; discriminate|reflexivity]]).
      * do 3 eexists. split; [reflexivity|split; [simpl; discriminate|reflexivity]].
    + do 3 eexists. split; [reflexivity|split; [simpl; discriminate|reflexivity]].
  - intros Hphone Hsave. apply String.eqb_neq in Hphone. rewrite Hphone, Hsave.
    cbn [negb andb]. split; intros text ->.
    + do 3 eexists. repeat split.
    + destruct (truthy (JStr text)); cbn [cast_string to_js_string];
        do 3 eexists; repeat split.
  - intros Hsave raw blob -> Hgen. rewrite Hgen, Hsave.
    destruct (truthy (JStr (trim raw))), (truthy (JStr blob));
      cbn [cast_string to_js_string]; do 3 eexists; repeat split.
Qed.

Lemma whitespace_dish_is_served_witness :
  exists resp w' r,
    Guarded.api_get_recipe (Sample.env_of Sample.chef) (Some "Bearer good") (JStr "   ")
      Sample.mixed
    = (Ret resp, w')
    /\ status resp = 200
    /\ Server.requests w' = Server.requests Sample.mixed ++ [r]
    /\ Server.dishName r = Some "   ".
Proof.
  refine (proj2 (proj1 (proj2
            (whitespace_dish_is_served (Sample.env_of Sample.chef) (Some "Bearer good")
               "good" Sample.asha "   " Sample.mixed Sample.empty2 _ _ _ _ _)) _ _)
            Sample.blob _).
  - discriminate.
  - reflexivity.
  - reflexivity.
  - discriminate.
  - reflexivity.
  - discriminate.
  - reflexivity.
  - reflexivity.
Defined.

(** ** Failures of the model *)

(** A run of either graph succeeds exactly when the model answers each of
    its prompts. *)
Lemma two_stage_invoke_completes (e : env) (dish : jsval) (raw blob : string)
    (w : TwoStage.world) :
  truthy dish = true ->
  llm e (TwoStage.categorize_prompt dish) = Completion raw ->
  llm e (TwoStage.recipe_prompt dish
           (if truthy (JStr (trim raw)) then JStr (trim raw) else JNull))
  = Completion blob ->
  exists result w1,
    TwoStage.appGraph_invoke e [("dish_name", dish)] w = (Ret result, w1).
Proof.
  intros Hdish H1 H2.
  unfold_two_stage. unfold_graph. rewrite Hdish.
  cbn [read get String.eqb Ascii.eqb Bool.eqb]. rewrite H1.
  unfold_graph. rewrite H2. do 2 eexists. reflexivity.
Qed.

Lemma guarded_invoke_completes (e : env) (dish : jsval) (text : string)
    (w : Server.world) :
  truthy dish = true ->
  llm e (Guarded.prompt dish) = Completion text ->
  exists result w1,
    Guarded.appGraph_invoke e [("dish_name", dish)] w = (Ret result, w1).
Proof.
  intros Hdish H1.
  unfold_guarded. unfold_graph. rewrite Hdish.
  cbn [read get String.eqb Ascii.eqb Bool.eqb]. rewrite H1.
  do 2 eexists. reflexivity.
Qed.

(** C4.  There is no partial success.
    - In the two-stage revision a run whose categorize call fails sends no
      generate prompt: the model has been called once, the response is 500
      and the store holds what it held.  A run whose generate call fails
      is answered 500 as well, with nothing stored.
    - In both revisions of src/server.js a failed model call behind the
      token check is answered 500, with nothing stored.
    - In every revision and for every request, a record is written only if
      the run of the pipeline succeeded (the one model call, for the first
      revision of src/server.js), and the request is then answered 200. *)
Theorem no_partial_success
    (e : env) (authHeader : option string) (dish : jsval)
    (w : Server.world) (wt : TwoStage.world) :
  (truthy dish = true ->
   llm e (TwoStage.categorize_prompt dish) = LlmError ->
   TwoStage.api_get_recipe e dish wt
   = (Ret (mkResponse 500 (TwoStage.Error "Something went wrong. Check server console.")),
      TwoStage.mkWorld (TwoStage.requests wt) (TwoStage.next_oid wt)
        (TwoStage.calls wt ++ [TwoStage.categorize_prompt dish])))
  /\ (forall raw,
         truthy dish = true ->
         llm e (TwoStage.categorize_prompt dish) = Completion raw ->
         llm e (TwoStage.recipe_prompt dish
                  (if truthy (JStr (trim raw)) then JStr (trim raw) else JNull))
         = LlmError ->
         exists w',
           TwoStage.api_get_recipe e dish wt
           = (Ret (mkResponse 500
                     (TwoStage.Error "Something went wrong. Check server console.")), w')
           /\ TwoStage.requests w' = TwoStage.requests wt)
  /\ (forall token user,
         Server.header_token authHeader = Some token -> token <> "" ->
         jwt_verify e token = Verified user ->
         truthy dish = true ->
         (llm e (Direct.prompt dish) = LlmError ->
          Direct.api_get_recipe e authHeader dish w
          = (Ret (mkResponse 500 (Server.Error "Chef is busy (Server Error)")),
             Server.mkWorld (Server.users w) (Server.requests w) (Server.next_oid w)
               (Server.calls w ++ [Direct.prompt dish])))
         /\ (llm e (Guarded.prompt dish) = LlmError ->
             Guarded.api_get_recipe e authHeader dish w
             = (Ret (mkResponse 500 (Server.Error "Something went wrong.")),
                Server.mkWorld (Server.users w) (Server.requests w) (Server.next_oid w)
                  (Server.calls w ++ [Guarded.prompt dish]))))
  /\ (TwoStage.requests (snd (TwoStage.api_get_recipe e dish wt)) <> TwoStage.requests wt ->
      (exists result w1,
          TwoStage.appGraph_invoke e [("dish_name", dish)] wt = (Ret result, w1))
      /\ exists resp,
           fst (TwoStage.api_get_recipe e dish wt) = Ret resp /\ status resp = 200)
  /\ (Server.requests (snd (Guarded.api_get_recipe e authHeader dish w))
      <> Server.requests w ->
      (exists result w1,
          Guarded.appGraph_invoke e [("dish_name", dish)] w = (Ret result, w1))
      /\ exists resp,
           fst (Guarded.api_get_recipe e authHeader dish w) = Ret resp
           /\ status resp = 200)
  /\ (Server.requests (snd (Direct.api_get_recipe e authHeader dish w))
      <> Server.requests w ->
      (exists text, llm e (Direct.prompt dish) = Completion text)
      /\ exists resp,
           fst (Direct.api_get_recipe e authHeader dish w) = Ret resp
           /\ status resp = 200).
Proof.
  split; [|split; [|split; [|split; [|split]]]].
  - intros Hdish Hllm.
    rewrite (two_stage_get_recipe_cases e dish wt Hdish). cbv zeta.
    now rewrite Hllm.
  - intros raw Hdish H1 H2.
    rewrite (two_stage_get_recipe_cases e dish wt Hdish). cbv zeta.
    rewrite H1, H2. eexists. split; reflexivity.
  - intros token user Htok Hne Hver Hdish.
    unfold Direct.api_get_recipe, Guarded.api_get_recipe.
    rewrite (proj2 (verified_token_passes _ _ e authHeader token user _ w Htok Hne Hver)).
    rewrite (proj2 (verified_token_passes _ _ e authHeader token user _ w Htok Hne Hver)).
    rewrite (direct_get_recipe_cases e dish user w Hdish).
    rewrite (guarded_get_recipe_cases e dish user w Hdish). cbv zeta.
    split; intros ->; reflexivity.
  - destruct (truthy dish) eqn:Hdish.
    + rewrite (two_stage_get_recipe_cases e dish wt Hdish). cbv zeta.
      destruct (llm e (TwoStage.categorize_prompt dish)) as [raw|] eqn:H1;
        [|intros H; now contradiction H].
      destruct (llm e (TwoStage.recipe_prompt dish _)) as [blob|] eqn:H2;
        [|intros H; now contradiction H].
      intros Hwritten. split.
      * exact (two_stage_invoke_completes e dish raw blob wt Hdish H1 H2).
      * revert Hwritten.
        destruct (cast_string dish); [|intros H; now contradiction H].
        destruct (cast_string (if truthy (JStr (trim raw)) then _ else _));
          [|intros H; now contradiction H].
        destruct (cast_string (if truthy (JStr blob) then _ else _));
          [|intros H; now contradiction H].
        destruct (save_ok e); [|intros H; now contradiction H].
        intros _. eexists. split; reflexivity.
    + rewrite (proj2 (proj2 (falsy_dish_rejected e dish Sample.asha w wt Hdish))).
      intros H. now contradiction H.
  - unfold Guarded.api_get_recipe.
    destruct (protected_frame "Access Denied: No Token Provided"
                "Access Denied: Invalid Token" e authHeader
                (Guarded.get_recipe e dish) w) as [(r & _ & ->)|(user & _ & ->)];
      [intros H; now contradiction H|].
    destruct (truthy dish) eqn:Hdish.
    + rewrite (guarded_get_recipe_cases e dish user w Hdish). cbv zeta.
      destruct (llm e (Guarded.prompt dish)) as [text|] eqn:H1;
        [|intros H; now contradiction H].
      intros Hwritten. split.
      * exact (guarded_invoke_completes e dish text w Hdish H1).
      * revert Hwritten.
        destruct (cast_string dish); [|intros H; now contradiction H].
        destruct (cast_string (if truthy (JStr text) then _ else _));
          [|intros H; now contradiction H].
        destruct (negb (claim_phone user =? "") && save_ok e);
          [|intros H; now contradiction H].
        intros _. eexists. split; reflexivity.
    + rewrite (proj1 (proj2 (falsy_dish_rejected e dish user w wt Hdish))).
      intros H. now contradiction H.
  - unfold Direct.api_get_recipe.
    destruct (protected_frame "Access Denied" "Invalid Token" e authHeader
                (Direct.get_recipe e dish) w) as [(r & _ & ->)|(user & _ & ->)];
      [intros H; now contradiction H|].
    destruct (truthy dish) eqn:Hdish.
    + rewrite (direct_get_recipe_cases e dish user w Hdish). cbv zeta.
      destruct (llm e (Direct.prompt dish)) as [text|] eqn:H1;
        [|intros H; now contradiction H].
      intros Hwritten. split; [now exists text|].
      revert Hwritten.
      destruct (cast_string dish); [|intros H; now contradiction H].
      destruct (negb (claim_phone user =? "") && save_ok e);
        [|intros H; now contradiction H].
      intros _. eexists. split; reflexivity.
    + rewrite (proj1 (falsy_dish_rejected e dish user w wt Hdish)).
      intros H. now contradiction H.
Qed.

Example generate_call_fails :
  TwoStage.api_get_recipe (Sample.env_of Sample.half) (JStr "Paneer Tikka") Sample.empty2
  = (Ret (mkResponse 500 (TwoStage.Error "Something went wrong. Check server console.")),
     TwoStage.mkWorld [] 0
       [TwoStage.categorize_prompt (JStr "Paneer Tikka");
        TwoStage.recipe_prompt (JStr "Paneer Tikka") (JStr "Veg")]).
Proof. reflexivity. Qed.

Lemma no_partial_success_witness :
  TwoStage.api_get_recipe (Sample.env_of Sample.down) (JStr "Paneer Tikka") Sample.empty2
  = (Ret (mkResponse 500 (TwoStage.Error "Something went wrong. Check server console.")),
     TwoStage.mkWorld [] 0 [TwoStage.categorize_prompt (JStr "Paneer Tikka")])
  /\ Guarded.api_get_recipe (Sample.env_of Sample.down) (Some "Bearer good")
       (JStr "Paneer Tikka") Sample.mixed
     = (Ret (mkResponse 500 (Server.Error "Something went wrong.")),
        Server.mkWorld (Server.users Sample.mixed) (Server.requests Sample.mixed) 5
          [Guarded.prompt (JStr "Paneer Tikka")]).
Proof.
  split.
  - apply (no_partial_success (Sample.env_of Sample.down) None (JStr "Paneer Tikka")
             Sample.empty Sample.empty2); reflexivity.
  - apply (no_partial_success (Sample.env_of Sample.down) (Some "Bearer good")
             (JStr "Paneer Tikka") Sample.mixed Sample.empty2)
      with (token := "good") (user := Sample.asha);
      solve [reflexivity | discriminate].
Defined.

(** ** Login *)

Lemma ten_digits_nonempty (p : string) : ten_digits p = true -> p <> "".
Proof. intros H ->. discriminate H. Qed.

Lemma find_none_existsb {A : Type} (f : A -> bool) (l : list A) :
  find f l = None -> existsb f l = false.
Proof.
  induction l as [|x l IH]; simpl; [reflexivity|].
  destruct (f x); [discriminate|exact IH].
Qed.

Lemma find_none_filter {A : Type} (f : A -> bool) (l : list A) :
  find f l = None -> filter f l = [].
Proof.
  induction l as [|x l IH]; simpl; [reflexivity|].
  destruct (f x); [discriminate|exact IH].
Qed.

Lemma find_none_app {A : Type} (f : A -> bool) (l l' : list A) :
  find f l = None -> find f (l ++ l') = find f l'.
Proof.
  induction l as [|x l IH]; simpl; [reflexivity|].
  destruct (f x); [discriminate|exact IH].
Qed.

Lemma find_none_phone (p : string) (l : list Server.User) :
  find (fun v => Server.user_phone v =? p) l = None ->
  ~ In p (map Server.user_phone l).
Proof.
  induction l as [|x l IH]; simpl; [tauto|].
  destruct (Server.user_phone x =? p) eqn:E; [discriminate|].
  intros Hfind [Hx|Hin]; [|now apply IH].
  apply String.eqb_neq in E. contradiction.
Qed.

Lemma find_some_phone (p : string) (l : list Server.User) (u : Server.User) :
  find (fun v => Server.user_phone v =? p) l = Some u -> Server.user_phone u = p.
Proof.
  intros H. apply find_some in H. destruct H as [_ H]. now apply String.eqb_eq.
Qed.

(** With unique phones, the user [findOne] returns is the only one with
    that phone. *)
Lemma unique_phone_filter (p : string) (l : list Server.User) (u : Server.User) :
  NoDup (map Server.user_phone l) ->
  find (fun v => Server.user_phone v =? p) l = Some u ->
  filter (fun v => Server.user_phone v =? p) l = [u].
Proof.
  induction l as [|x l IH]; simpl; [discriminate|].
  intros Hnd Hfind. inversion Hnd as [|? ? Hnotin Hnd']; subst.
  destruct (Server.user_phone x =? p) eqn:E.
  - injection Hfind as ->. f_equal.
    apply String.eqb_eq in E. subst p.
    destruct (find (fun v => Server.user_phone v =? Server.user_phone u) l) as [v|] eqn:F.
    + exfalso. apply Hnotin. pose proof (find_some_phone _ _ _ F) as Hv.
      apply find_some in F. destruct F as [Hin _].
      rewrite <- Hv. now apply in_map.
    + now apply find_none_filter.
  - now apply IH.
Qed.

Lemma nodup_phone_snoc (l : list Server.User) (u : Server.User) :
  NoDup (map Server.user_phone l) ->
  ~ In (Server.user_phone u) (map Server.user_phone l) ->
  NoDup (map Server.user_phone (l ++ [u])).
Proof.
  intros Hnd Hnotin. rewrite map_app. simpl.
  apply NoDup_app; [exact Hnd|repeat constructor; simpl; tauto|].
  intros x Hx [<-|[]]. contradiction.
Qed.

Section LoginFacts.
Variable expiresIn : string.

(** A phone that is already registered: the stored user is signed in. *)
Lemma find_or_create_existing (e : env) (name : jsval) (phone : string)
    (u : Server.User) (w : Server.world) :
  find_ok e = true ->
  find (fun v => Server.user_phone v =? phone) (Server.users w) = Some u ->
  Server.find_or_create expiresIn e name (JStr phone) w
  = (Ret (mkResponse 200
            (Server.LoginOk
               (jwt_sign e (mkClaims (Server.user_id u) (Server.user_phone u)
                              (Server.user_name u)) expiresIn)
               (Server.user_name u) (Server.user_phone u))),
     w).
Proof.
  intros Hok Hfind.
  unfold Server.find_or_create, Server.findOne. unfold_async.
  cbn [cast_string to_js_string]. rewrite Hok, Hfind. reflexivity.
Qed.

(** A phone that is not registered yet: a user is created from the
    request. *)
Lemma find_or_create_new (e : env) (name phone : string) (w : Server.world) :
  phone <> "" -> find_ok e = true -> save_ok e = true ->
  find (fun v => Server.user_phone v =? phone) (Server.users w) = None ->
  Server.find_or_create expiresIn e (JStr name) (JStr phone) w
  = (Ret (mkResponse 200
            (Server.LoginOk
               (jwt_sign e (mkClaims (Server.next_oid w) phone name) expiresIn)
               name phone)),
     Server.mkWorld
       (Server.users w ++ [Server.mkUser (Server.next_oid w) name phone (now e)])
       (Server.requests w) (S (Server.next_oid w)) (Server.calls w)).
Proof.
  intros Hphone Hok Hsave Hfind. apply String.eqb_neq in Hphone.
  unfold Server.find_or_create, Server.findOne, Server.new_UserModel,
    Server.save_user, Server.fresh_oid. unfold_async.
  cbn [cast_string to_js_string]. rewrite Hok, Hfind, Hphone.
  cbn [Server.users Server.requests Server.next_oid Server.calls Server.user_phone].
  rewrite Hsave, (find_none_existsb _ _ Hfind). reflexivity.
Qed.

(** Two logins in a row with one phone. *)
Lemma find_or_create_twice (e1 e2 : env) (name1 name2 phone : string)
    (w : Server.world) :
  phone <> "" -> find_ok e1 = true -> save_ok e1 = true -> find_ok e2 = true ->
  NoDup (map Server.user_phone (Server.users w)) ->
  exists (u : Server.User) (w1 : Server.world),
    Server.find_or_create expiresIn e1 (JStr name1) (JStr phone) w
    = (Ret (mkResponse 200
              (Server.LoginOk
                 (jwt_sign e1 (mkClaims (Server.user_id u) phone (Server.user_name u))
                    expiresIn)
                 (Server.user_name u) phone)),
       w1)
    /\ Server.find_or_create expiresIn e2 (JStr name2) (JStr phone) w1
       = (Ret (mkResponse 200
                 (Server.LoginOk
                    (jwt_sign e2 (mkClaims (Server.user_id u) phone (Server.user_name u))
                       expiresIn)
                    (Server.user_name u) phone)),
          w1)
    /\ filter (fun v => Server.user_phone v =? phone) (Server.users w1) = [u]
    /\ NoDup (map Server.user_phone (Server.users w1))
    /\ (Server.users w1 = Server.users w
        \/ (Server.users w1 = Server.users w ++ [u] /\ Server.user_name u = name1)).
Proof.
  intros Hphone Hf1 Hs1 Hf2 Hnd.
  destruct (find (fun v => Server.user_phone v =? phone) (Server.users w))
    as [u|] eqn:Hfind.
  - exists u, w. pose proof (find_some_phone _ _ _ Hfind) as Hp.
    rewrite (find_or_create_existing e1 (JStr name1) phone u w Hf1 Hfind).
    rewrite (find_or_create_existing e2 (JStr name2) phone u w Hf2 Hfind).
    rewrite Hp. repeat split; auto using unique_phone_filter.
  - set (u := Server.mkUser (Server.next_oid w) name1 phone (now e1)).
    set (w1 := Server.mkWorld (Server.users w ++ [u]) (Server.requests w)
                 (S (Server.next_oid w)) (Server.calls w)).
    assert (Hnd1 : NoDup (map Server.user_phone (Server.users w1))).
    { apply nodup_phone_snoc; [exact Hnd|]. now apply find_none_phone. }
    assert (Hfind1 : find (fun v => Server.user_phone v =? phone) (Server.users w1)
                     = Some u).
    { simpl. rewrite (find_none_app _ _ _ Hfind). simpl. now rewrite String.eqb_refl. }
    exists u, w1.
    rewrite (find_or_create_new e1 name1 phone w Hphone Hf1 Hs1 Hfind).
    rewrite (find_or_create_existing e2 (JStr name2) phone u w1 Hf2 Hfind1).
    repeat split; auto using unique_phone_filter.
Qed.
End LoginFacts.

(** Valid input passes the checks of both login routes. *)
Lemma login_valid_input (e : env) (name phone : string) (w : Server.world) :
  name <> "" -> ten_digits phone = true ->
  Direct.api_login e (JStr name) (JStr phone) w
  = Server.find_or_create "24h" e (JStr name) (JStr phone) w
  /\ Guarded.api_login e (JStr name) (JStr phone) w
     = Server.find_or_create "2h" e (JStr name) (JStr phone) w.
Proof.
  intros Hname Hphone.
  pose proof (truthy_str name Hname) as Hn.
  pose proof (truthy_str phone (ten_digits_nonempty phone Hphone)) as Hp.
  unfold Direct.api_login, Guarded.api_login, Guarded.isValidPhone.
  cbn [is_string to_js_string negb orb]. rewrite Hn, Hp, Hphone. split; reflexivity.
Qed.

(** C6.  For a valid ten-digit phone and two non-empty names, in a store
    whose users have distinct phones and that answers: two logins in a row
    with that phone, in either revision, both answer 200 with a token signed
    for one and the same user (same id, same phone, same name) and with that
    user's name; after them exactly one user has the phone, phones are still
    distinct, the second login has changed nothing in the store, and the
    user is either the one stored before, unchanged, or a new one carrying
    the first name.  The second name is stored nowhere. *)
Theorem login_twice_same_user
    (e1 e2 : env) (name1 name2 phone : string) (w : Server.world) :
  name1 <> "" -> name2 <> "" -> ten_digits phone = true ->
  find_ok e1 = true -> save_ok e1 = true -> find_ok e2 = true ->
  Server.unique_phones w ->
  (exists (u : Server.User) (w1 : Server.world),
      Direct.api_login e1 (JStr name1) (JStr phone) w
      = (Ret (mkResponse 200
                (Server.LoginOk
                   (jwt_sign e1 (mkClaims (Server.user_id u) phone (Server.user_name u))
                      "24h")
                   (Server.user_name u) phone)),
         w1)
      /\ Direct.api_login e2 (JStr name2) (JStr phone) w1
         = (Ret (mkResponse 200
                   (Server.LoginOk
                      (jwt_sign e2 (mkClaims (Server.user_id u) phone (Server.user_name u))
                         "24h")
                      (Server.user_name u) phone)),
            w1)
      /\ filter (fun v => Server.user_phone v =? phone) (Server.users w1) = [u]
      /\ Server.unique_phones w1
      /\ (Server.users w1 = Server.users w
          \/ (Server.users w1 = Server.users w ++ [u] /\ Server.user_name u = name1)))
  /\ (exists (u : Server.User) (w1 : Server.world),
         Guarded.api_login e1 (JStr name1) (JStr phone) w
         = (Ret (mkResponse 200
                   (Server.LoginOk
                      (jwt_sign e1 (mkClaims (Server.user_id u) phone (Server.user_name u))
                         "2h")
                      (Server.user_name u) phone)),
            w1)
         /\ Guarded.api_login e2 (JStr name2) (JStr phone) w1
            = (Ret (mkResponse 200
                      (Server.LoginOk
                         (jwt_sign e2
                            (mkClaims (Server.user_id u) phone (Server.user_name u)) "2h")
                         (Server.user_name u) phone)),
               w1)
         /\ filter (fun v => Server.user_phone v =? phone) (Server.users w1) = [u]
         /\ Server.unique_phones w1
         /\ (Server.users w1 = Server.users w
             \/ (Server.users w1 = Server.users w ++ [u] /\ Server.user_name u = name1))).
Proof.
  intros Hn1 Hn2 Hphone Hf1 Hs1 Hf2 Hnd. split.
  - destruct (find_or_create_twice "24h" e1 e2 name1 name2 phone w
                (ten_digits_nonempty phone Hphone) Hf1 Hs1 Hf2 Hnd)
      as (u & w1 & H1 & H2 & Hrest).
    exists u, w1.
    rewrite (proj1 (login_valid_input e1 name1 phone w Hn1 Hphone)).
    rewrite (proj1 (login_valid_input e2 name2 phone w1 Hn2 Hphone)).
    auto.
  - destruct (find_or_create_twice "2h" e1 e2 name1 name2 phone w
                (ten_digits_nonempty phone Hphone) Hf1 Hs1 Hf2 Hnd)
      as (u & w1 & H1 & H2 & Hrest).
    exists u, w1.
    rewrite (proj2 (login_valid_input e1 name1 phone w Hn1 Hphone)).
    rewrite (proj2 (login_valid_input e2 name2 phone w1 Hn2 Hphone)).
    auto.
Qed.

Example login_twice_run :
  Guarded.api_login (Sample.env_of Sample.chef) (JStr "Asha") (JStr "9876543210")
    Sample.empty
  = (Ret (mkResponse 200 (Server.LoginOk "9876543210/Asha/2h" "Asha" "9876543210")),
     Server.mkWorld [Server.mkUser 0 "Asha" "9876543210" 1700000000000] [] 1 [])
  /\ Guarded.api_login (Sample.env_of Sample.chef) (JStr "Meera") (JStr "9876543210")
       (Server.mkWorld [Server.mkUser 0 "Asha" "9876543210" 1700000000000] [] 1 [])
     = (Ret (mkResponse 200 (Server.LoginOk "9876543210/Asha/2h" "Asha" "9876543210")),
        Server.mkWorld [Server.mkUser 0 "Asha" "9876543210" 1700000000000] [] 1 []).
Proof. split; reflexivity. Qed.

Lemma login_twice_same_user_witness :
  exists (u : Server.User) (w1 : Server.world),
    Guarded.api_login (Sample.env_of Sample.chef) (JStr "Asha") (JStr "9876543210")
      Sample.empty
    = (Ret (mkResponse 200
              (Server.LoginOk
                 (Sample.sign (mkClaims (Server.user_id u) "9876543210"
                                 (Server.user_name u)) "2h")
                 (Server.user_name u) "9876543210")),
       w1)
    /\ Guarded.api_login (Sample.env_of Sample.down) (JStr "Meera") (JStr "9876543210") w1
       = (Ret (mkResponse 200
                 (Server.LoginOk
                    (Sample.sign (mkClaims (Server.user_id u) "9876543210"
                                    (Server.user_name u)) "2h")
                    (Server.user_name u) "9876543210")),
          w1)
    /\ filter (fun v => Server.user_phone v =? "9876543210") (Server.users w1) = [u].
Proof.
  destruct (login_twice_same_user (Sample.env_of Sample.chef) (Sample.env_of Sample.down)
              "Asha" "Meera" "9876543210" Sample.empty)
    as [_ (u & w1 & H1 & H2 & H3 & _)].
  - discriminate.
  - discriminate.
  - reflexivity.
  - reflexivity.
  - reflexivity.
  - reflexivity.
  - constructor.
  - exists u, w1. repeat split; assumption.
Defined.

(** C10.  For a non-empty name, a valid ten-digit phone and a store that
    answers, in either revision: when a user with that phone is stored,
    login signs the token for the stored user (its id, phone and name) and
    returns the stored name, whatever name the request carries, and leaves
    the store as it was; when none is stored and the store accepts the
    write, the user is created with the name of the request, which is then
    the name signed and returned. *)
Theorem login_uses_stored_name
    (e : env) (name phone : string) (w : Server.world) :
  name <> "" -> ten_digits phone = true -> find_ok e = true ->
  (forall u : Server.User,
      find (fun v => Server.user_phone v =? phone) (Server.users w) = Some u ->
      Direct.api_login e (JStr name) (JStr phone) w
      = (Ret (mkResponse 200
                (Server.LoginOk
                   (jwt_sign e (mkClaims (Server.user_id u) (Server.user_phone u)
                                  (Server.user_name u)) "24h")
                   (Server.user_name u) (Server.user_phone u))),
         w)
      /\ Guarded.api_login e (JStr name) (JStr phone) w
         = (Ret (mkResponse 200
                   (Server.LoginOk
                      (jwt_sign e (mkClaims (Server.user_id u) (Server.user_phone u)
                                     (Server.user_name u)) "2h")
                      (Server.user_name u) (Server.user_phone u))),
            w))
  /\ (find (fun v => Server.user_phone v =? phone) (Server.users w) = None ->
      save_ok e = true ->
      Direct.api_login e (JStr name) (JStr phone) w
      = (Ret (mkResponse 200
                (Server.LoginOk
                   (jwt_sign e (mkClaims (Server.next_oid w) phone name) "24h")
                   name phone)),
         Server.mkWorld
           (Server.users w ++ [Server.mkUser (Server.next_oid w) name phone (now e)])
           (Server.requests w) (S (Server.next_oid w)) (Server.calls w))
      /\ Guarded.api_login e (JStr name) (JStr phone) w
         = (Ret (mkResponse 200
                   (Server.LoginOk
                      (jwt_sign e (mkClaims (Server.next_oid w) phone name) "2h")
                      name phone)),
            Server.mkWorld
              (Server.users w ++ [Server.mkUser (Server.next_oid w) name phone (now e)])
              (Server.requests w) (S (Server.next_oid w)) (Server.calls w))).
Proof.
  intros Hname Hphone Hfind.
  destruct (login_valid_input e name phone w Hname Hphone) as [-> ->].
  split.
  - intros u Hu. split; now apply find_or_create_existing.
  - intros Hnone Hsave.
    split; apply find_or_create_new; auto using ten_digits_nonempty.
Qed.

Lemma login_uses_stored_name_witness :
  Guarded.api_login (Sample.env_of Sample.chef) (JStr "Meera") (JStr "9876543210")
    Sample.mixed
  = (Ret (mkResponse 200 (Server.LoginOk "9876543210/Asha/2h" "Asha" "9876543210")),
     Sample.mixed).
Proof.
  apply (login_uses_stored_name (Sample.env_of Sample.chef) "Meera" "9876543210"
           Sample.mixed)
    with (u := Server.mkUser 0 "Asha" "9876543210" 10).
  - discriminate.
  - reflexivity.
  - reflexivity.
  - reflexivity.
Defined.

(** ** The unique index over time *)

Section Preservation.
Context {S : Type} (P : S -> Prop).

Lemma preserves_ret {A : Type} (a : A) : preserves P (@ret S A a).
Proof. intros s Hs. exact Hs. Qed.

Lemma preserves_throw {A : Type} : preserves P (@throw S A).
Proof. intros s Hs. exact Hs. Qed.

Lemma preserves_bind {A B : Type} (m : M S A) (k : A -> M S B) :
  preserves P m -> (forall a, preserves P (k a)) -> preserves P (bind m k).
Proof.
  intros Hm Hk s Hs. unfold bind. specialize (Hm s Hs).
  destruct (m s) as [[a|] s']; simpl in *.
  - now apply Hk.
  - exact Hm.
Qed.

Lemma preserves_try_catch {A : Type} (body handler : M S A) :
  preserves P body -> preserves P handler -> preserves P (try_catch body handler).
Proof.
  intros Hb Hh s Hs. unfold try_catch. specialize (Hb s Hs).
  destruct (body s) as [[a|] s']; simpl in *.
  - exact Hb.
  - now apply Hh.
Qed.

Lemma preserves_run_nodes (channels : list (string * channel))
    (nodes : list (object -> M S object)) :
  Forall (fun node => forall st, preserves P (node st)) nodes ->
  forall st, preserves P (run_nodes channels nodes st).
Proof.
  induction 1 as [|node rest Hnode _ IH]; intros st; simpl.
  - apply preserves_ret.
  - apply preserves_bind; [apply Hnode|]. intros u. apply IH.
Qed.
End Preservation.

(** An operation that leaves the users alone keeps their phones distinct. *)
Lemma preserves_by_users {A : Type} (m : Server.async A) :
  (forall w, Server.users (snd (m w)) = Server.users w) ->
  preserves Server.unique_phones m.
Proof. intros H w Hw. unfold Server.unique_phones. now rewrite H. Qed.

Lemma model_call_unique (e : env) (prompt : string) :
  preserves Server.unique_phones (Server.model_call e prompt).
Proof.
  apply preserves_by_users. intros w. unfold Server.model_call.
  now destruct (llm e prompt).
Qed.

Lemma new_RequestModel_unique (e : env) (phone : string) (dish cat text : jsval) :
  preserves Server.unique_phones (Server.new_RequestModel e phone dish cat text).
Proof. apply preserves_by_users. intros w. reflexivity. Qed.

Lemma save_request_unique (e : env) (doc : option Server.RecipeRequest) :
  preserves Server.unique_phones (Server.save_request e doc).
Proof.
  apply preserves_by_users. intros w. unfold Server.save_request.
  destruct doc; [destruct (save_ok e)|]; reflexivity.
Qed.

Lemma findOne_unique (e : env) (phone : jsval) :
  preserves Server.unique_phones (Server.findOne e phone).
Proof.
  apply preserves_by_users. intros w. unfold Server.findOne.
  destruct (cast_string phone) as [[p|]|]; [destruct (find_ok e)| |]; reflexivity.
Qed.

Lemma new_UserModel_unique (e : env) (name phone : jsval) :
  preserves Server.unique_phones (Server.new_UserModel e name phone).
Proof. apply preserves_by_users. intros w. reflexivity. Qed.

(** [save()] is where the index acts: a second user with a stored phone is
    refused. *)
Lemma save_user_unique (e : env) (doc : option Server.User) :
  preserves Server.unique_phones (Server.save_user e doc).
Proof.
  intros w Hw. unfold Server.save_user. destruct doc as [u|]; [|exact Hw].
  destruct (save_ok e); [|exact Hw]. simpl.
  destruct (existsb _ (Server.users w)) eqn:E; [exact Hw|]. simpl.
  apply nodup_phone_snoc; [exact Hw|].
  intros Hin. apply in_map_iff in Hin. destruct Hin as (v & Hv & Hin).
  assert (existsb (fun v => Server.user_phone v =? Server.user_phone u) (Server.users w)
          = true) as E'.
  { apply existsb_exists. exists v. split; [exact Hin|]. now apply String.eqb_eq. }
  congruence.
Qed.

Lemma find_or_create_unique (expiresIn : string) (e : env) (name phone : jsval) :
  preserves Server.unique_phones (Server.find_or_create expiresIn e name phone).
Proof.
  unfold Server.find_or_create.
  apply preserves_try_catch; [|apply preserves_ret].
  apply preserves_bind; [apply findOne_unique|]. intros found.
  apply preserves_bind; [|intros user; apply preserves_ret].
  destruct found as [u|]; [apply preserves_ret|].
  apply preserves_bind; [apply new_UserModel_unique|]. intros doc.
  apply save_user_unique.
Qed.

Lemma protected_unique (no_token invalid_token : string) (e : env)
    (authHeader : option string)
    (handler : claims -> Server.async (response Server.body)) :
  (forall user, preserves Server.unique_phones (handler user)) ->
  preserves Server.unique_phones
    (Server.protected no_token invalid_token e authHeader handler).
Proof.
  intros H. unfold Server.protected.
  destruct (Server.authenticateToken _ _ e authHeader) as [r|user].
  - apply preserves_ret.
  - apply H.
Qed.

Lemma api_history_unique (no_token invalid_token : string) (e : env)
    (authHeader : option string) :
  preserves Server.unique_phones
    (Server.api_history no_token invalid_token e authHeader).
Proof.
  apply protected_unique. intros user.
  apply preserves_try_catch; [|apply preserves_ret].
  apply preserves_bind; [|intros h; apply preserves_ret].
  apply preserves_by_users. intros w. unfold Server.find_by_phone.
  now destruct (find_ok e).
Qed.

Lemma direct_app_unique (e : env) (req : Server.request) :
  preserves Server.unique_phones (Direct.app e req).
Proof.
  destruct req as [name phone|authHeader|authHeader dish]; simpl.
  - unfold Direct.api_login.
    destruct (negb (truthy name) || negb (truthy phone)); [apply preserves_ret|].
    destruct (negb (ten_digits (to_js_string phone))); [apply preserves_ret|].
    apply find_or_create_unique.
  - apply api_history_unique.
  - apply protected_unique. intros user. unfold Direct.get_recipe.
    apply preserves_try_catch; [|apply preserves_ret].
    destruct (negb (truthy dish)); [apply preserves_ret|].
    apply preserves_bind; [apply model_call_unique|]. intros text.
    apply preserves_bind; [apply new_RequestModel_unique|]. intros doc.
    apply preserves_bind; [apply save_request_unique|]. intros r.
    apply preserves_ret.
Qed.

Lemma guarded_app_unique (e : env) (req : Server.request) :
  preserves Server.unique_phones (Guarded.app e req).
Proof.
  destruct req as [name phone|authHeader|authHeader dish]; simpl.
  - unfold Guarded.api_login.
    destruct (negb (truthy name) || negb (truthy phone)
              || negb (is_string name) || negb (is_string phone));
      [apply preserves_ret|].
    destruct (negb (Guarded.isValidPhone phone)); [apply preserves_ret|].
    apply find_or_create_unique.
  - apply api_history_unique.
  - apply protected_unique. intros user. unfold Guarded.get_recipe.
    apply preserves_try_catch; [|apply preserves_ret].
    destruct (negb (truthy dish)); [apply preserves_ret|].
    apply preserves_bind.
    + apply preserves_run_nodes. repeat constructor. intros st.
      apply preserves_bind; [apply model_call_unique|]. intros text.
      apply preserves_ret.
    + intros result.
      apply preserves_bind; [apply new_RequestModel_unique|]. intros doc.
      apply preserves_bind; [apply save_request_unique|]. intros r.
      apply preserves_ret.
Qed.

(** Whatever requests a revision serves, in whatever environments, a store
    that starts with distinct phones (the empty one, for a start) keeps them
    distinct: what the theorem on two logins asks of the store holds at
    every moment of the server's life. *)
Lemma serve_unique_phones
    (app : env -> Server.request -> Server.async (response Server.body))
    (trace : list (env * Server.request)) (w : Server.world) :
  (forall e req, preserves Server.unique_phones (app e req)) ->
  Server.unique_phones w ->
  Server.unique_phones (Server.serve app trace w).
Proof.
  intros Happ. revert w.
  induction trace as [|[e req] rest IH]; intros w Hw; simpl.
  - exact Hw.
  - apply IH. now apply Happ.
Qed.

Example served_phones_stay_unique (trace : list (env * Server.request)) :
  Server.unique_phones (Server.serve Direct.app trace Sample.empty)
  /\ Server.unique_phones (Server.serve Guarded.app trace Sample.empty).
Proof.
  split; apply serve_unique_phones;
    auto using direct_app_unique, guarded_app_unique; constructor.
Qed.

(** * Further properties of the routes *)

(** ** Reading the Authorization header *)

Lemma split_space_word (s : string) :
  no_space s = true -> split_space s = [s].
Proof.
  induction s as [|c s IH]; simpl; [reflexivity|].
  unfold no_space. simpl. intros H. apply andb_prop in H. destruct H as [Hc Hs].
  apply negb_true_iff in Hc. rewrite Hc. now rewrite (IH Hs).
Qed.

Lemma split_space_cons (a b : string) :
  no_space a = true -> split_space (a ++ String " " b) = a :: split_space b.
Proof.
  induction a as [|c a IH]; simpl; [reflexivity|].
  unfold no_space. simpl. intros H. apply andb_prop in H. destruct H as [Hc Ha].
  apply negb_true_iff in Hc. rewrite Hc. now rewrite (IH Ha).
Qed.

Lemma split_space_first (a b : string) :
  no_space a = true -> split_space (a ++ " " ++ b) = a :: split_space b.
Proof. exact (split_space_cons a b). Qed.

Lemma spaced_nonempty (a b : string) : truthy (JStr (a ++ " " ++ b)%string) = true.
Proof. now destruct a. Qed.

(** X1.  The middleware takes as token the second word of the Authorization
    header, the words being what single spaces separate, and does not look
    at the first word: after any scheme word, [Bearer] or another, and one
    space, a token without spaces is read back exactly, whether the header
    ends there or goes on after another space; a token that is not empty is
    then judged by [jwt.verify] alone. *)
Theorem header_token_second_word
    (no_token invalid_token : string) (e : env) (scheme token : string) :
  no_space scheme = true -> no_space token = true ->
  Server.header_token (Some (scheme ++ " " ++ token)%string) = Some token
  /\ (forall rest,
         Server.header_token (Some (scheme ++ " " ++ token ++ " " ++ rest)%string) = Some token)
  /\ (token <> "" ->
      Server.authenticateToken no_token invalid_token e (Some (scheme ++ " " ++ token)%string)
      = match jwt_verify e token with
        | Verified user => inr user
        | Rejected _ => inl (mkResponse 403 (Server.Error invalid_token))
        end).
Proof.
  intros Hs Ht.
  assert (H1 : Server.header_token (Some (scheme ++ " " ++ token)%string) = Some token).
  { unfold Server.header_token. rewrite spaced_nonempty.
    rewrite (split_space_first scheme token Hs), (split_space_word token Ht).
    reflexivity. }
  split; [exact H1|split].
  - intros rest. unfold Server.header_token. rewrite spaced_nonempty.
    rewrite (split_space_first scheme _ Hs), (split_space_first token rest Ht).
    reflexivity.
  - intros Hne. unfold Server.authenticateToken. rewrite H1.
    rewrite (truthy_str token Hne). simpl. now destruct (jwt_verify e token).
Qed.

Lemma header_token_second_word_witness :
  Guarded.authenticateToken (Sample.env_of Sample.chef) (Some "Token good")
  = inr Sample.asha.
Proof.
  apply (header_token_second_word "Access Denied: No Token Provided"
           "Access Denied: Invalid Token" (Sample.env_of Sample.chef) "Token" "good");
    solve [reflexivity | discriminate].
Defined.

(** X2.  A header of one word is a request without a token: a token sent
    bare, with no scheme word and space in front of it, is answered 401, not
    403, and [jwt.verify] is not asked, even when it would have accepted that
    very token.  The same holds for a scheme word followed by spaces only
    before the token. *)
Theorem bare_token_is_no_token
    (no_token invalid_token : string) (e : env) (word : string)
    (handler : claims -> Server.async (response Server.body)) (w : Server.world) :
  no_space word = true ->
  Server.protected no_token invalid_token e (Some word) handler w
  = (Ret (mkResponse 401 (Server.Error no_token)), w)
  /\ (forall token,
         Server.protected no_token invalid_token e (Some (word ++ "  " ++ token)%string) handler w
         = (Ret (mkResponse 401 (Server.Error no_token)), w)).
Proof.
  intros Hw. split.
  - unfold Server.protected, Server.authenticateToken, Server.header_token.
    rewrite (split_space_word word Hw).
    destruct (truthy (JStr word)) eqn:E.
    + reflexivity.
    + cbv beta iota. rewrite E. reflexivity.
  - intros token.
    unfold Server.protected, Server.authenticateToken, Server.header_token.
    change (word ++ "  " ++ token)%string with (word ++ " " ++ (" " ++ token))%string.
    rewrite spaced_nonempty, (split_space_first word _ Hw). reflexivity.
Qed.

Lemma bare_token_is_no_token_witness :
  Guarded.api_history (Sample.env_of Sample.chef) (Some "good") Sample.mixed
  = (Ret (mkResponse 401 (Server.Error "Access Denied: No Token Provided")), Sample.mixed).
Proof.
  apply (bare_token_is_no_token "Access Denied: No Token Provided"
           "Access Denied: Invalid Token" (Sample.env_of Sample.chef) "good").
  reflexivity.
Defined.

(** ** Login: validation, store failures, what a 200 means *)

(** The [try] block of login, case by case. *)
Lemma find_or_create_cases (expiresIn : string) (e : env) (name phone : jsval)
    (w : Server.world) :
  Server.find_or_create expiresIn e name phone w
  = let failed := mkResponse 500 (Server.Error "Login failed") in
    let signed_in (u : Server.User) :=
      mkResponse 200
        (Server.LoginOk
           (jwt_sign e (mkClaims (Server.user_id u) (Server.user_phone u)
                          (Server.user_name u)) expiresIn)
           (Server.user_name u) (Server.user_phone u)) in
    let spent :=
      Server.mkWorld (Server.users w) (Server.requests w) (S (Server.next_oid w))
        (Server.calls w) in
    match cast_string phone with
    | CastOk (Some p) =>
        if find_ok e then
          match find (fun v => Server.user_phone v =? p) (Server.users w) with
          | Some u => (Ret (signed_in u), w)
          | None =>
              match cast_string name with
              | CastOk (Some n) =>
                  if p =? "" then (Ret failed, spent)
                  else if save_ok e
                  then let u := Server.mkUser (Server.next_oid w) n p (now e) in
                       (Ret (signed_in u),
                        Server.mkWorld (Server.users w ++ [u]) (Server.requests w)
                          (S (Server.next_oid w)) (Server.calls w))
                  else (Ret failed, spent)
              | _ => (Ret failed, spent)
              end
          end
        else (Ret failed, w)
    | _ => (Ret failed, w)
    end.
Proof.
  cbv zeta.
  unfold Server.find_or_create, Server.findOne, Server.new_UserModel,
    Server.save_user, Server.fresh_oid. unfold_async.
  destruct (cast_string phone) as [[p|]|]; [|reflexivity|reflexivity].
  destruct (find_ok e); [|reflexivity].
  destruct (find _ (Server.users w)) as [u|] eqn:Hfind; [reflexivity|].
  cbn [Server.users Server.requests Server.next_oid Server.calls].
  destruct (cast_string name) as [[n|]|]; [|reflexivity|reflexivity].
  destruct (p =? ""); [reflexivity|].
  cbn [Server.user_phone]. rewrite (find_none_existsb _ _ Hfind).
  destruct (save_ok e); reflexivity.
Qed.

(** A phone that passed the checks of the first revision is a string or a
    number, and is stored as its string form. *)
Lemma digits_cast (phone : jsval) :
  ten_digits (to_js_string phone) = true ->
  cast_string phone = CastOk (Some (to_js_string phone))
  /\ to_js_string phone <> "".
Proof.
  intros H. split; [|now apply ten_digits_nonempty].
  destruct phone as [| |[|]|z|s|]; try reflexivity; discriminate H.
Qed.



(** X4.  The first revision does not ask for strings: a phone sent as a JSON
    number whose decimal form has ten digits passes its checks, and the user
    is looked up and, when new, stored under that decimal string.  The second
    revision answers the same request with 400. *)
Theorem numeric_phone_is_accepted_by_first_revision
    (e : env) (name : string) (z : Z) (w : Server.world) :
  name <> "" ->
  ten_digits (to_js_string (JNum z)) = true ->
  find_ok e = true -> save_ok e = true ->
  find (fun v => Server.user_phone v =? to_js_string (JNum z)) (Server.users w) = None ->
  Direct.api_login e (JStr name) (JNum z) w
  = (Ret (mkResponse 200
            (Server.LoginOk
               (jwt_sign e (mkClaims (Server.next_oid w) (to_js_string (JNum z)) name) "24h")
               name (to_js_string (JNum z)))),
     Server.mkWorld
       (Server.users w
        ++ [Server.mkUser (Server.next_oid w) name (to_js_string (JNum z)) (now e)])
       (Server.requests w) (S (Server.next_oid w)) (Server.calls w))
  /\ Guarded.api_login e (JStr name) (JNum z) w
     = (Ret (mkResponse 400 (Server.Error "Invalid input")), w).
Proof.
  intros Hname Hdigits Hfind Hsave Hnone.
  destruct (digits_cast (JNum z) Hdigits) as [Hcast Hne].
  split.
  - unfold Direct.api_login.
    assert (Htruthy : truthy (JNum z) = true).
    { destruct z; [discriminate Hdigits|reflexivity|reflexivity]. }
    rewrite (truthy_str name Hname), Htruthy, Hdigits. cbn [negb orb].
    rewrite find_or_create_cases. cbv zeta.
    rewrite Hcast, Hfind, Hnone.
    change (cast_string (JStr name)) with (CastOk (Some name)).
    apply String.eqb_neq in Hne. cbv beta iota. rewrite Hne, Hsave. reflexivity.
  - unfold Guarded.api_login. cbn [is_string negb orb].
    now rewrite orb_true_r.
Qed.

Lemma numeric_phone_is_accepted_by_first_revision_witness :
  Direct.api_login (Sample.env_of Sample.chef) (JStr "Asha") (JNum 9876543210) Sample.empty
  = (Ret (mkResponse 200 (Server.LoginOk "9876543210/Asha/24h" "Asha" "9876543210")),
     Server.mkWorld [Server.mkUser 0 "Asha" "9876543210" 1700000000000] [] 1 []).
Proof.
  apply (numeric_phone_is_accepted_by_first_revision (Sample.env_of Sample.chef)
           "Asha" 9876543210 Sample.empty);
    solve [reflexivity | discriminate].
Defined.

(** X5.  When the store fails during a login with valid input, the answer is
    500 "Login failed" and no user is stored: a query that fails leaves the
    store as it was, and a write that is refused for a new phone leaves the
    users as they were. *)
Theorem login_store_failure (e : env) (name phone : string) (w : Server.world) :
  name <> "" -> ten_digits phone = true ->
  (find_ok e = false ->
   Direct.api_login e (JStr name) (JStr phone) w
   = (Ret (mkResponse 500 (Server.Error "Login failed")), w)
   /\ Guarded.api_login e (JStr name) (JStr phone) w
      = (Ret (mkResponse 500 (Server.Error "Login failed")), w))
  /\ (find_ok e = true -> save_ok e = false ->
      find (fun v => Server.user_phone v =? phone) (Server.users w) = None ->
      exists w',
        Direct.api_login e (JStr name) (JStr phone) w
        = (Ret (mkResponse 500 (Server.Error "Login failed")), w')
        /\ Guarded.api_login e (JStr name) (JStr phone) w
           = (Ret (mkResponse 500 (Server.Error "Login failed")), w')
        /\ Server.users w' = Server.users w
        /\ Server.requests w' = Server.requests w).
Proof.
  intros Hname Hphone.
  destruct (login_valid_input e name phone w Hname Hphone) as [-> ->].
  rewrite !find_or_create_cases. cbv zeta. cbn [cast_string to_js_string].
  split.
  - intros ->. split; reflexivity.
  - intros -> Hsave ->. rewrite Hsave.
    destruct (phone =? ""); eexists; repeat split.
Qed.

Lemma login_store_failure_witness :
  Guarded.api_login (mkEnv 0 Sample.chef Sample.sign Sample.verify false true)
    (JStr "Asha") (JStr "9876543210") Sample.mixed
  = (Ret (mkResponse 500 (Server.Error "Login failed")), Sample.mixed).
Proof.
  apply (login_store_failure (mkEnv 0 Sample.chef Sample.sign Sample.verify false true)
           "Asha" "9876543210" Sample.mixed);
    solve [reflexivity | discriminate].
Defined.

(** X6.  A login that is answered 200, in either revision and whatever the
    input was, leaves a user with the phone of the request in the store, and
    the token and the name in the answer are that stored user's: the payload
    signed is its id, phone and name.  The store has at most that one user
    more than before. *)
Theorem login_ok_means_registered
    (e : env) (name phone : jsval) (w w' : Server.world) (resp : response Server.body) :
  status resp = 200 ->
  (Direct.api_login e name phone w = (Ret resp, w') ->
   exists u,
     find (fun v => Server.user_phone v =? to_js_string phone) (Server.users w') = Some u
     /\ body resp
        = Server.LoginOk
            (jwt_sign e (mkClaims (Server.user_id u) (Server.user_phone u)
                           (Server.user_name u)) "24h")
            (Server.user_name u) (Server.user_phone u)
     /\ (Server.users w' = Server.users w \/ Server.users w' = Server.users w ++ [u]))
  /\ (Guarded.api_login e name phone w = (Ret resp, w') ->
      exists u,
        find (fun v => Server.user_phone v =? to_js_string phone) (Server.users w') = Some u
        /\ body resp
           = Server.LoginOk
               (jwt_sign e (mkClaims (Server.user_id u) (Server.user_phone u)
                              (Server.user_name u)) "2h")
               (Server.user_name u) (Server.user_phone u)
        /\ (Server.users w' = Server.users w \/ Server.users w' = Server.users w ++ [u])).
Proof.
  intros Hstatus.
  assert (Hcore : forall expiresIn,
             ten_digits (to_js_string phone) = true ->
             Server.find_or_create expiresIn e name phone w = (Ret resp, w') ->
             exists u,
               find (fun v => Server.user_phone v =? to_js_string phone) (Server.users w')
               = Some u
               /\ body resp
                  = Server.LoginOk
                      (jwt_sign e (mkClaims (Server.user_id u) (Server.user_phone u)
                                     (Server.user_name u)) expiresIn)
                      (Server.user_name u) (Server.user_phone u)
               /\ (Server.users w' = Server.users w
                   \/ Server.users w' = Server.users w ++ [u])).
  { intros expiresIn Hdigits. rewrite find_or_create_cases. cbv zeta.
    destruct (digits_cast phone Hdigits) as [-> Hne].
    destruct (find_ok e); [|intros H; injection H as <- <-; discriminate Hstatus].
    destruct (find _ (Server.users w)) as [u|] eqn:Hfind.
    - intros H. injection H as <- <-. exists u. repeat split; auto.
    - destruct (cast_string name) as [[n|]|];
        try (intros H; injection H as <- <-; discriminate Hstatus).
      destruct (to_js_string phone =? "");
        [intros H; injection H as <- <-; discriminate Hstatus|].
      destruct (save_ok e); [|intros H; injection H as <- <-; discriminate Hstatus].
      intros H. injection H as <- <-.
      exists (Server.mkUser (Server.next_oid w) n (to_js_string phone) (now e)).
      split; [|split; [reflexivity|right; reflexivity]].
      cbn [Server.users]. rewrite (find_none_app _ _ _ Hfind). simpl.
      now rewrite String.eqb_refl. }
  split.
  - unfold Direct.api_login.
    destruct (negb (truthy name) || negb (truthy phone));
      [intros H; injection H as <- <-; discriminate Hstatus|].
    destruct (ten_digits (to_js_string phone)) eqn:Hd; cbn [negb];
      [|intros H; injection H as <- <-; discriminate Hstatus].
    now apply Hcore.
  - unfold Guarded.api_login, Guarded.isValidPhone.
    destruct (negb (truthy name) || negb (truthy phone)
              || negb (is_string name) || negb (is_string phone));
      [intros H; injection H as <- <-; discriminate Hstatus|].
    destruct (ten_digits (to_js_string phone)) eqn:Hd; cbn [negb];
      [|intros H; injection H as <- <-; discriminate Hstatus].
    now apply Hcore.
Qed.

Lemma login_ok_means_registered_witness :
  exists u,
    find (fun v => Server.user_phone v =? "9123456780") (Server.users Sample.mixed) = Some u
    /\ Server.user_name u = "Ravi".
Proof.
  destruct (proj2 (login_ok_means_registered (Sample.env_of Sample.chef)
                     (JStr "Someone") (JStr "9123456780") Sample.mixed Sample.mixed
                     (mkResponse 200
                        (Server.LoginOk "9123456780/Ravi/2h" "Ravi" "9123456780"))
                     eq_refl) eq_refl)
    as (u & Hfind & Hbody & _).
  exists u. split; [exact Hfind|].
  simpl in Hbody. now injection Hbody as _ <- _.
Defined.

(** ** History: what it leaves alone, how much it lists *)

(** X7.  The history routes only read.  Whatever the request and the
    environment, the store and the log of model calls are after the request
    what they were before it, in every revision; and when the store does not
    answer the query, the answer is 500 "Failed to fetch history" (behind a
    verified token, where the revision asks for one). *)
Theorem history_is_read_only
    (no_token invalid_token : string) (e : env) (authHeader : option string)
    (w : Server.world) (wt : TwoStage.world) :
  snd (Server.api_history no_token invalid_token e authHeader w) = w
  /\ snd (TwoStage.api_history e wt) = wt
  /\ (find_ok e = false ->
      TwoStage.api_history e wt
      = (Ret (mkResponse 500 (TwoStage.Error "Failed to fetch history")), wt)
      /\ forall user,
           Server.authenticateToken no_token invalid_token e authHeader = inr user ->
           Server.api_history no_token invalid_token e authHeader w
           = (Ret (mkResponse 500 (Server.Error "Failed to fetch history")), w)).
Proof.
  split; [|split].
  - unfold Server.api_history.
    destruct (protected_frame no_token invalid_token e authHeader
                (fun user =>
                   try_catch
                     (bind (Server.find_by_phone e (claim_phone user))
                        (fun history => ret (mkResponse 200 (Server.History history))))
                     (ret (mkResponse 500 (Server.Error "Failed to fetch history")))) w)
      as [(r & _ & ->)|(user & _ & ->)]; [reflexivity|].
    unfold_async. unfold Server.find_by_phone. now destruct (find_ok e).
  - unfold TwoStage.api_history, TwoStage.find_latest. unfold_async.
    now destruct (find_ok e).
  - intros Hfind. split.
    + unfold TwoStage.api_history, TwoStage.find_latest. unfold_async.
      now rewrite Hfind.
    + intros user Hauth. unfold Server.api_history, Server.protected.
      rewrite Hauth. unfold_async. unfold Server.find_by_phone. now rewrite Hfind.
Qed.

Lemma history_is_read_only_witness :
  Guarded.api_history (mkEnv 0 Sample.chef Sample.sign Sample.verify false true)
    (Some "Bearer good") Sample.mixed
  = (Ret (mkResponse 500 (Server.Error "Failed to fetch history")), Sample.mixed).
Proof.
  refine (proj2 (proj2 (proj2 (history_is_read_only
            "Access Denied: No Token Provided" "Access Denied: Invalid Token"
            (mkEnv 0 Sample.chef Sample.sign Sample.verify false true)
            (Some "Bearer good") Sample.mixed Sample.empty2)) eq_refl) Sample.asha eq_refl).
Defined.

Lemma strongly_sorted_split {A : Type} (R : A -> A -> Prop) (l1 l2 : list A) :
  StronglySorted R (l1 ++ l2) ->
  forall x y, In x l1 -> In y l2 -> R x y.
Proof.
  induction l1 as [|a l1 IH]; simpl; intros Hs x y Hx Hy; [contradiction|].
  inversion Hs as [|? ? Hs' Hall]; subst.
  destruct Hx as [<-|Hx].
  - rewrite Forall_forall in Hall. apply Hall. apply in_or_app. now right.
  - now apply (IH Hs').
Qed.

(** X8.  The history of src/unnamed/part_000 lists ten records when the store
    holds ten or more, and all of them when it holds fewer; the records it
    lists are stored ones, and every stored record it leaves out was created
    no later than every record it lists. *)
Theorem history_lists_the_ten_newest (e : env) (wt : TwoStage.world) :
  find_ok e = true ->
  exists docs rest,
    TwoStage.api_history e wt = (Ret (mkResponse 200 (TwoStage.History docs)), wt)
    /\ length docs = Nat.min 10 (length (TwoStage.requests wt))
    /\ Permutation (TwoStage.requests wt) (docs ++ rest)
    /\ (forall d r, In d docs -> In r rest ->
                    (TwoStage.createdAt r <= TwoStage.createdAt d)%Z).
Proof.
  intros Hfind.
  exists (firstn 10 (sort_desc TwoStage.createdAt (TwoStage.requests wt))),
         (skipn 10 (sort_desc TwoStage.createdAt (TwoStage.requests wt))).
  split; [|split; [|split]].
  - unfold TwoStage.api_history, TwoStage.find_latest. unfold_async.
    now rewrite Hfind.
  - rewrite length_firstn.
    now rewrite <- (Permutation_length (sort_desc_perm TwoStage.createdAt _)).
  - rewrite firstn_skipn. apply sort_desc_perm.
  - apply (strongly_sorted_split (desc TwoStage.createdAt)).
    rewrite firstn_skipn. apply sort_desc_strongly_sorted.
Qed.

Example history_of_a_dozen :
  match fst (TwoStage.api_history (Sample.env_of Sample.chef) More.dozen) with
  | Ret (mkResponse 200 (TwoStage.History docs)) => map TwoStage.createdAt docs
  | _ => []
  end
  = [11; 10; 9; 8; 7; 6; 5; 4; 3; 2]%Z.
Proof. reflexivity. Qed.

Lemma history_lists_the_ten_newest_witness :
  exists docs rest,
    TwoStage.api_history (Sample.env_of Sample.chef) More.dozen
    = (Ret (mkResponse 200 (TwoStage.History docs)), More.dozen)
    /\ length docs = 10
    /\ Permutation (TwoStage.requests More.dozen) (docs ++ rest).
Proof.
  destruct (history_lists_the_ten_newest (Sample.env_of Sample.chef) More.dozen eq_refl)
    as (docs & rest & H1 & H2 & H3 & _).
  exists docs, rest. repeat split; assumption.
Defined.

(** ** The recipe routes of src/server.js: every outcome *)

(** Every request to the recipe route of the first revision ends in one of
    two ways: an error answer with nothing written, or a 200 that describes
    the one record written. *)
Lemma direct_route_outcomes (e : env) (authHeader : option string) (dish : jsval)
    (w : Server.world) :
  exists resp w',
    Direct.api_get_recipe e authHeader dish w = (Ret resp, w')
    /\ ((exists msg, resp = mkResponse (status resp) (Server.Error msg))
        /\ known_status (status resp) = true /\ status resp <> 200
        /\ Server.users w' = Server.users w /\ Server.requests w' = Server.requests w
        /\ (Server.calls w' = Server.calls w
            \/ (truthy dish = true
                /\ Server.calls w' = Server.calls w ++ [Direct.prompt dish]))
        /\ (save_ok e = false -> truthy dish = true ->
            forall user, Direct.authenticateToken e authHeader = inr user ->
                         status resp = 500
                         /\ Server.calls w' = Server.calls w ++ [Direct.prompt dish])
        \/ (exists user text d,
               Direct.authenticateToken e authHeader = inr user
               /\ truthy dish = true
               /\ llm e (Direct.prompt dish) = Completion text
               /\ cast_string dish = CastOk d
               /\ claim_phone user <> "" /\ save_ok e = true
               /\ resp = mkResponse 200
                           (Server.Recipe (Server.next_oid w) dish (JStr text) (now e))
               /\ w' = Server.mkWorld (Server.users w)
                         (Server.requests w
                          ++ [Server.mkRequest (Server.next_oid w) (claim_phone user) d
                                (Some "Gourmet") (Some text) (now e)])
                         (S (Server.next_oid w))
                         (Server.calls w ++ [Direct.prompt dish]))).
Proof.
  unfold Direct.api_get_recipe, Direct.authenticateToken.
  destruct (protected_frame "Access Denied" "Invalid Token" e authHeader
              (Direct.get_recipe e dish) w) as [(r & Hauth & ->)|(user & Hauth & ->)].
  - exists r, w. split; [reflexivity|]. left. rewrite Hauth.
    unfold Server.authenticateToken in Hauth.
    destruct (Server.header_token authHeader) as [token|];
      [destruct (negb (truthy (JStr token)));
       [|destruct (jwt_verify e token); [discriminate|]]|];
      injection Hauth as <-; simpl;
      (repeat split; eauto; try discriminate).
  - rewrite Hauth. destruct (truthy dish) eqn:Hdish.
    + rewrite (direct_get_recipe_cases e dish user w Hdish). cbv zeta.
      destruct (llm e (Direct.prompt dish)) as [text|] eqn:Hllm.
      * destruct (cast_string dish) as [d|] eqn:Hcast.
        -- destruct (claim_phone user =? "") eqn:Hphone; cbn [negb andb].
           ++ do 2 eexists. split; [reflexivity|]. left. simpl.
              repeat split; eauto; try discriminate.
           ++ destruct (save_ok e) eqn:Hsave.
              ** do 2 eexists. split; [reflexivity|]. right.
                 exists user, text, d. apply String.eqb_neq in Hphone.
                 repeat split; auto.
              ** do 2 eexists. split; [reflexivity|]. left. simpl.
                 repeat split; eauto; try discriminate.
        -- do 2 eexists. split; [reflexivity|]. left. simpl.
           repeat split; eauto; try discriminate.
      * do 2 eexists. split; [reflexivity|]. left. simpl.
        repeat split; eauto; try discriminate.
    + rewrite (proj1 (falsy_dish_rejected e dish user w Sample.empty2 Hdish)).
      do 2 eexists. split; [reflexivity|]. left. simpl.
      repeat split; eauto; try discriminate.
Qed.

(** The same for the second revision, where the text of the model goes
    through the [recipe] channel of the graph. *)
Lemma guarded_route_outcomes (e : env) (authHeader : option string) (dish : jsval)
    (w : Server.world) :
  exists resp w',
    Guarded.api_get_recipe e authHeader dish w = (Ret resp, w')
    /\ ((exists msg, resp = mkResponse (status resp) (Server.Error msg))
        /\ known_status (status resp) = true /\ status resp <> 200
        /\ Server.users w' = Server.users w /\ Server.requests w' = Server.requests w
        /\ (Server.calls w' = Server.calls w
            \/ (truthy dish = true
                /\ Server.calls w' = Server.calls w ++ [Guarded.prompt dish]))
        /\ (save_ok e = false -> truthy dish = true ->
            forall user, Guarded.authenticateToken e authHeader = inr user ->
                         status resp = 500
                         /\ Server.calls w' = Server.calls w ++ [Guarded.prompt dish])
        \/ (exists user text d rec,
               Guarded.authenticateToken e authHeader = inr user
               /\ truthy dish = true
               /\ llm e (Guarded.prompt dish) = Completion text
               /\ cast_string dish = CastOk d
               /\ claim_phone user <> "" /\ save_ok e = true
               /\ cast_string (if truthy (JStr text) then JStr text else JNull) = CastOk rec
               /\ resp = mkResponse 200
                           (Server.Recipe (Server.next_oid w) dish
                              (if truthy (JStr text) then JStr text else JNull) (now e))
               /\ w' = Server.mkWorld (Server.users w)
                         (Server.requests w
                          ++ [Server.mkRequest (Server.next_oid w) (claim_phone user) d
                                (Some "Gourmet") rec (now e)])
                         (S (Server.next_oid w))
                         (Server.calls w ++ [Guarded.prompt dish]))).
Proof.
  unfold Guarded.api_get_recipe, Guarded.authenticateToken.
  destruct (protected_frame "Access Denied: No Token Provided"
              "Access Denied: Invalid Token" e authHeader
              (Guarded.get_recipe e dish) w) as [(r & Hauth & ->)|(user & Hauth & ->)].
  - exists r, w. split; [reflexivity|]. left. rewrite Hauth.
    unfold Server.authenticateToken in Hauth.
    destruct (Server.header_token authHeader) as [token|];
      [destruct (negb (truthy (JStr token)));
       [|destruct (jwt_verify e token); [discriminate|]]|];
      injection Hauth as <-; simpl;
      (repeat split; eauto; try discriminate).
  - rewrite Hauth. destruct (truthy dish) eqn:Hdish.
    + rewrite (guarded_get_recipe_cases e dish user w Hdish). cbv zeta.
      destruct (llm e (Guarded.prompt dish)) as [text|] eqn:Hllm.
      * destruct (cast_string dish) as [d|] eqn:Hcast.
        -- destruct (cast_string (if truthy (JStr text) then _ else _)) as [rec|] eqn:Hrec.
           ++ destruct (claim_phone user =? "") eqn:Hphone; cbn [negb andb].
              ** do 2 eexists. split; [reflexivity|]. left. simpl.
                 repeat split; eauto; try discriminate.
              ** destruct (save_ok e) eqn:Hsave.
                 --- do 2 eexists. split; [reflexivity|]. right.
                     exists user, text, d, rec. apply String.eqb_neq in Hphone.
                     repeat split; auto.
                 --- do 2 eexists. split; [reflexivity|]. left. simpl.
                     repeat split; eauto; try discriminate.
           ++ do 2 eexists. split; [reflexivity|]. left. simpl.
              repeat split; eauto; try discriminate.
        -- do 2 eexists. split; [reflexivity|]. left. simpl.
           repeat split; eauto; try discriminate.
      * do 2 eexists. split; [reflexivity|]. left. simpl.
        repeat split; eauto; try discriminate.
    + rewrite (proj1 (proj2 (falsy_dish_rejected e dish user w Sample.empty2 Hdish))).
      do 2 eexists. split; [reflexivity|]. left. simpl.
      repeat split; eauto; try discriminate.
Qed.

(** X9.  A record is never stored under a phone of the caller's choosing.  A
    request to the recipe route of src/server.js, in either revision, stores
    nothing or exactly one record; that record carries the phone of the
    claims [jwt.verify] returned for the request's token, a phone that is not
    empty, the category "Gourmet", the time of the request, and as
    [dishName] the dish of the body as Mongoose casts it. *)
Theorem record_belongs_to_token_holder
    (e : env) (authHeader : option string) (dish : jsval) (w : Server.world) :
  (Server.requests (snd (Direct.api_get_recipe e authHeader dish w)) = Server.requests w
   \/ exists user r,
        Direct.authenticateToken e authHeader = inr user
        /\ Server.requests (snd (Direct.api_get_recipe e authHeader dish w))
           = Server.requests w ++ [r]
        /\ Server.userPhone r = claim_phone user /\ Server.userPhone r <> ""
        /\ Server.category r = Some "Gourmet"
        /\ Server.createdAt r = now e
        /\ cast_string dish = CastOk (Server.dishName r))
  /\ (Server.requests (snd (Guarded.api_get_recipe e authHeader dish w))
      = Server.requests w
      \/ exists user r,
           Guarded.authenticateToken e authHeader = inr user
           /\ Server.requests (snd (Guarded.api_get_recipe e authHeader dish w))
              = Server.requests w ++ [r]
           /\ Server.userPhone r = claim_phone user /\ Server.userPhone r <> ""
           /\ Server.category r = Some "Gourmet"
           /\ Server.createdAt r = now e
           /\ cast_string dish = CastOk (Server.dishName r)).
Proof.
  split.
  - destruct (direct_route_outcomes e authHeader dish w)
      as (resp & w' & -> & [(_ & _ & _ & _ & Hreq & _)
                           |(user & text & d & Hauth & _ & _ & Hcast & Hphone & _ & _ & ->)]).
    + left. exact Hreq.
    + right. exists user. eexists. repeat split; eauto.
  - destruct (guarded_route_outcomes e authHeader dish w)
      as (resp & w' & -> & [(_ & _ & _ & _ & Hreq & _)
                           |(user & text & d & rec & Hauth & _ & _ & Hcast & Hphone
                             & _ & _ & _ & ->)]).
    + left. exact Hreq.
    + right. exists user. eexists. repeat split; eauto.
Qed.

(** X10.  A 200 from the recipe route of src/server.js describes a record
    that has been stored.  When the route answers 200, in either revision,
    the model was called once, with the prompt built from the dish, exactly
    one record was appended, and the answer carries that record's [_id] and
    [createdAt], the dish as the body had it, and the recipe whose stored
    form is the record's [recipe]. *)
Theorem answer_describes_the_record
    (e : env) (authHeader : option string) (dish : jsval) (w w' : Server.world)
    (resp : response Server.body) :
  status resp = 200 ->
  (Direct.api_get_recipe e authHeader dish w = (Ret resp, w') ->
   exists r text,
     Server.requests w' = Server.requests w ++ [r]
     /\ Server.calls w' = Server.calls w ++ [Direct.prompt dish]
     /\ body resp = Server.Recipe (Server._id r) dish text (Server.createdAt r)
     /\ cast_string text = CastOk (Server.recipe r))
  /\ (Guarded.api_get_recipe e authHeader dish w = (Ret resp, w') ->
      exists r text,
        Server.requests w' = Server.requests w ++ [r]
        /\ Server.calls w' = Server.calls w ++ [Guarded.prompt dish]
        /\ body resp = Server.Recipe (Server._id r) dish text (Server.createdAt r)
        /\ cast_string text = CastOk (Server.recipe r)).
Proof.
  intros Hstatus. split; intros Hrun.
  - destruct (direct_route_outcomes e authHeader dish w)
      as (resp0 & w0 & Hrun0 & [(_ & _ & Hne & _)
                               |(user & text & d & _ & _ & _ & _ & _ & _ & Hresp & Hw)]);
      rewrite Hrun in Hrun0; injection Hrun0 as <- <-.
    + contradiction.
    + subst resp w'. do 2 eexists. repeat split.
  - destruct (guarded_route_outcomes e authHeader dish w)
      as (resp0 & w0 & Hrun0 & [(_ & _ & Hne & _)
                               |(user & text & d & rec & _ & _ & _ & _ & _ & _ & Hrec
                                 & Hresp & Hw)]);
      rewrite Hrun in Hrun0; injection Hrun0 as <- <-.
    + contradiction.
    + subst resp w'. do 2 eexists. repeat split. exact Hrec.
Qed.

Lemma answer_describes_the_record_witness :
  exists r text,
    Server.requests
      (snd (Guarded.api_get_recipe (Sample.env_of Sample.chef) (Some "Bearer good")
              (JStr "Dal") Sample.mixed))
    = Server.requests Sample.mixed ++ [r]
    /\ cast_string text = CastOk (Server.recipe r)
    /\ Server._id r = 5.
Proof.
  destruct (proj2 (answer_describes_the_record (Sample.env_of Sample.chef)
                     (Some "Bearer good") (JStr "Dal") Sample.mixed _
                     (mkResponse 200
                        (Server.Recipe 5 (JStr "Dal") (JStr Sample.blob) 1700000000000))
                     eq_refl) eq_refl)
    as (r & text & Hreq & _ & Hbody & Hcast).
  exists r, text. repeat split; [exact Hreq|exact Hcast|].
  simpl in Hbody. now injection Hbody as <- _ _.
Defined.



(** ** Empty and blank answers of the model *)

(** X12.  An empty completion is not an error for any revision.  For a
    non-empty dish string, a verified token with a phone (where the revision
    asks for one) and a store that accepts the write: when the model answers
    the recipe prompt with the empty text, the request is answered 200 and a
    record is stored; the first revision of src/server.js stores and returns
    the empty string as recipe, the second stores and returns no recipe
    (null), because the empty string does not pass the [recipe] channel. *)
Theorem empty_completion_is_stored
    (e : env) (authHeader : option string) (token : string) (user : claims)
    (dish : string) (w : Server.world) :
  dish <> "" ->
  Server.header_token authHeader = Some token -> token <> "" ->
  jwt_verify e token = Verified user -> claim_phone user <> "" ->
  save_ok e = true ->
  (llm e (Direct.prompt (JStr dish)) = Completion "" ->
   Direct.api_get_recipe e authHeader (JStr dish) w
   = (Ret (mkResponse 200 (Server.Recipe (Server.next_oid w) (JStr dish) (JStr "") (now e))),
      Server.mkWorld (Server.users w)
        (Server.requests w
         ++ [Server.mkRequest (Server.next_oid w) (claim_phone user) (Some dish)
               (Some "Gourmet") (Some "") (now e)])
        (S (Server.next_oid w)) (Server.calls w ++ [Direct.prompt (JStr dish)])))
  /\ (llm e (Guarded.prompt (JStr dish)) = Completion "" ->
      Guarded.api_get_recipe e authHeader (JStr dish) w
      = (Ret (mkResponse 200 (Server.Recipe (Server.next_oid w) (JStr dish) JNull (now e))),
         Server.mkWorld (Server.users w)
           (Server.requests w
            ++ [Server.mkRequest (Server.next_oid w) (claim_phone user) (Some dish)
                  (Some "Gourmet") None (now e)])
           (S (Server.next_oid w)) (Server.calls w ++ [Guarded.prompt (JStr dish)]))).
Proof.
  intros Hdish Htok Hne Hver Hphone Hsave.
  pose proof (truthy_str dish Hdish) as Htruthy.
  apply String.eqb_neq in Hphone.
  unfold Direct.api_get_recipe, Guarded.api_get_recipe.
  rewrite (proj2 (verified_token_passes _ _ e authHeader token user _ w Htok Hne Hver)).
  rewrite (proj2 (verified_token_passes _ _ e authHeader token user _ w Htok Hne Hver)).
  rewrite (direct_get_recipe_cases e (JStr dish) user w Htruthy).
  rewrite (guarded_get_recipe_cases e (JStr dish) user w Htruthy).
  cbv zeta. rewrite Hphone, Hsave. split; intros ->; reflexivity.
Qed.

Lemma empty_completion_is_stored_witness :
  Guarded.api_get_recipe (Sample.env_of More.silent) (Some "Bearer good") (JStr "Dal")
    Sample.empty
  = (Ret (mkResponse 200 (Server.Recipe 0 (JStr "Dal") JNull 1700000000000)),
     Server.mkWorld []
       [Server.mkRequest 0 "9876543210" (Some "Dal") (Some "Gourmet") None 1700000000000]
       1 [Guarded.prompt (JStr "Dal")]).
Proof.
  apply (empty_completion_is_stored (Sample.env_of More.silent) (Some "Bearer good")
           "good" Sample.asha "Dal" Sample.empty);
    solve [reflexivity | discriminate].
Defined.

Lemma prefix_app (a b c : string) : prefix (a ++ b) (a ++ c) = prefix b c.
Proof.
  induction a as [|x a IH]; simpl; [reflexivity|].
  destruct (ascii_dec x x); [exact IH|contradiction].
Qed.

(** X13.  In the two-stage revision a categorize answer of white space only
    (or an empty one) leaves the category null, and the run goes on: the
    generate prompt is built with that null, so that its text reads
    "... to make '<dish>' (null).", and when the model answers it and the
    store accepts the write the request is answered 200 with a null category
    and a record without category is stored. *)
Theorem blank_category_goes_on_as_null
    (e : env) (dish raw blob : string) (wt : TwoStage.world) :
  dish <> "" -> trim raw = "" ->
  llm e (TwoStage.categorize_prompt (JStr dish)) = Completion raw ->
  llm e (TwoStage.recipe_prompt (JStr dish) JNull) = Completion blob ->
  save_ok e = true ->
  prefix ("The user wants to make '" ++ dish ++ "' (null).")
         (TwoStage.recipe_prompt (JStr dish) JNull) = true
  /\ exists text stored,
       TwoStage.api_get_recipe e (JStr dish) wt
       = (Ret (mkResponse 200 (TwoStage.Recipe JNull text)),
          TwoStage.mkWorld
            (TwoStage.requests wt
             ++ [TwoStage.mkRequest (TwoStage.next_oid wt) (Some dish) None stored
                   (now e)])
            (S (TwoStage.next_oid wt))
            (TwoStage.calls wt
             ++ [TwoStage.categorize_prompt (JStr dish);
                 TwoStage.recipe_prompt (JStr dish) JNull]))
       /\ cast_string text = CastOk stored.
Proof.
  intros Hdish Hblank Hcat Hgen Hsave. split.
  - unfold TwoStage.recipe_prompt. cbn [to_js_string].
    rewrite (prefix_app "The user wants to make '"), (prefix_app dish).
    reflexivity.
  - rewrite (two_stage_get_recipe_cases e (JStr dish) wt (truthy_str dish Hdish)).
    cbv zeta. rewrite Hcat, Hblank. cbn [truthy String.eqb negb].
    rewrite Hgen, Hsave. cbn [cast_string to_js_string].
    destruct (blob =? ""); cbn [negb cast_string to_js_string];
      do 2 eexists; split; reflexivity.
Qed.

Example blank_category_run :
  TwoStage.api_get_recipe (Sample.env_of Sample.mute) (JStr "Dal") Sample.empty2
  = (Ret (mkResponse 200 (TwoStage.Recipe JNull (JStr " "))),
     TwoStage.mkWorld
       [TwoStage.mkRequest 0 (Some "Dal") None (Some " ") 1700000000000] 1
       [TwoStage.categorize_prompt (JStr "Dal"); TwoStage.recipe_prompt (JStr "Dal") JNull]).
Proof. reflexivity. Qed.

Lemma blank_category_goes_on_as_null_witness :
  exists text stored,
    TwoStage.api_get_recipe (Sample.env_of Sample.mute) (JStr "Dal") Sample.empty2
    = (Ret (mkResponse 200 (TwoStage.Recipe JNull text)),
       TwoStage.mkWorld
         [TwoStage.mkRequest 0 (Some "Dal") None stored 1700000000000] 1
         [TwoStage.categorize_prompt (JStr "Dal");
          TwoStage.recipe_prompt (JStr "Dal") JNull])
    /\ cast_string text = CastOk stored.
Proof.
  refine (proj2 (blank_category_goes_on_as_null (Sample.env_of Sample.mute) "Dal" " " " "
                   Sample.empty2 _ eq_refl eq_refl eq_refl eq_refl)).
  discriminate.
Defined.

(** ** The state of the graphs *)

(** X14.  What a run of either graph returns, whatever the model answers:
    the state has exactly the channels of the graph, in their order; the
    dish that was put in comes out unchanged as [dish_name]; and [category]
    and [recipe] are each null or a non-empty string, never the empty string
    and never undefined. *)
Theorem run_keeps_the_dish
    (e : env) (dish : jsval) (result : object)
    (w w' : Server.world) (wt wt' : TwoStage.world) :
  truthy dish = true ->
  (Guarded.appGraph_invoke e [("dish_name", dish)] w = (Ret result, w') ->
   map fst result = ["dish_name"; "recipe"]
   /\ read result "dish_name" = dish
   /\ (read result "recipe" = JNull
       \/ exists text, text <> "" /\ read result "recipe" = JStr text))
  /\ (TwoStage.appGraph_invoke e [("dish_name", dish)] wt = (Ret result, wt') ->
      map fst result = ["dish_name"; "category"; "recipe"]
      /\ read result "dish_name" = dish
      /\ (read result "category" = JNull
          \/ exists text, text <> "" /\ read result "category" = JStr text)
      /\ (read result "recipe" = JNull
          \/ exists text, text <> "" /\ read result "recipe" = JStr text)).
Proof.
  intros Hdish.
  assert (Hstr : forall t, (if truthy (JStr t) then JStr t else JNull) = JNull
                           \/ exists text, text <> ""
                                /\ (if truthy (JStr t) then JStr t else JNull) = JStr text).
  { intros t. simpl. destruct (t =? "") eqn:E; simpl; [now left|].
    right. exists t. apply String.eqb_neq in E. now split. }
  split.
  - unfold_guarded. unfold_graph. rewrite Hdish.
    cbn [read get String.eqb Ascii.eqb Bool.eqb].
    destruct (llm e (Guarded.prompt dish)) as [text|]; [|discriminate].
    unfold_graph. intros H. injection H as <- _.
    repeat split. apply Hstr.
  - unfold_two_stage. unfold_graph. rewrite Hdish.
    cbn [read get String.eqb Ascii.eqb Bool.eqb].
    destruct (llm e (TwoStage.categorize_prompt dish)) as [raw|]; [|discriminate].
    unfold_graph.
    destruct (llm e (TwoStage.recipe_prompt dish _)) as [blob|]; [|discriminate].
    unfold_graph. intros H. injection H as <- _.
    repeat split; apply Hstr.
Qed.

Lemma run_keeps_the_dish_witness :
  read [("dish_name", JStr "Paneer Tikka"); ("category", JStr "Veg");
        ("recipe", JStr Sample.blob)] "dish_name"
  = JStr "Paneer Tikka".
Proof.
  refine (proj1 (proj2 (proj2 (run_keeps_the_dish (Sample.env_of Sample.chef)
            (JStr "Paneer Tikka") _ Sample.empty Sample.empty Sample.empty2 _ eq_refl)
            eq_refl))).
Defined.

(** X15.  Merging an update is idempotent, and an empty update changes
    nothing: in both graphs, for every state and update, applying the update
    a second time, or applying an update without keys, gives the state back;
    and a merged state has exactly the channels of the graph, whatever keys
    the state and the update had. *)
Theorem merge_is_idempotent (st u : object) :
  (merge Guarded.graphState (merge Guarded.graphState st u) u
   = merge Guarded.graphState st u
   /\ merge Guarded.graphState (merge Guarded.graphState st u) []
      = merge Guarded.graphState st u
   /\ map fst (merge Guarded.graphState st u) = ["dish_name"; "recipe"])
  /\ (merge TwoStage.graphState (merge TwoStage.graphState st u) u
      = merge TwoStage.graphState st u
      /\ merge TwoStage.graphState (merge TwoStage.graphState st u) []
         = merge TwoStage.graphState st u
      /\ map fst (merge TwoStage.graphState st u) = ["dish_name"; "category"; "recipe"]).
Proof.
  assert (Hvalue : forall x y,
             (if truthy y then y else if truthy y then y else x)
             = (if truthy y then y else x)).
  { intros x y. now destruct (truthy y). }
  split; (split; [|split; reflexivity]);
    cbn [merge map fst snd Guarded.graphState TwoStage.graphState value
         read get String.eqb Ascii.eqb Bool.eqb];
    repeat match goal with
           | |- context [get ?k u] => destruct (get k u)
           end;
    rewrite ?Hvalue; reflexivity.
Qed.

(** ** Routes one after the other *)

Lemma sort_desc_newest {A : Type} (key : A -> Z) (l : list A) (x : A) :
  (forall y, In y l -> (key y < key x)%Z) ->
  sort_desc key (l ++ [x]) = x :: sort_desc key l.
Proof.
  induction l as [|a l IH]; intros Hnew; simpl; [reflexivity|].
  rewrite IH by (intros y Hy; apply Hnew; now right). simpl.
  assert (key a < key x)%Z as Ha by (apply Hnew; now left).
  destruct (key x <=? key a)%Z eqn:E; [|reflexivity].
  apply Z.leb_le in E. lia.
Qed.

(** The history of a caller on a store to which one record of that caller
    has just been added. *)
Lemma history_after_append
    (no_token invalid_token : string) (e : env) (authHeader : option string)
    (user : claims) (w : Server.world) (r : Server.RecipeRequest)
    (us : list Server.User) (n : nat) (cs : list string) :
  Server.authenticateToken no_token invalid_token e authHeader = inr user ->
  find_ok e = true ->
  Server.userPhone r = claim_phone user ->
  let w' := Server.mkWorld us (Server.requests w ++ [r]) n cs in
  let before :=
    sort_desc Server.createdAt
      (filter (fun q => Server.userPhone q =? claim_phone user) (Server.requests w)) in
  exists docs,
    Server.api_history no_token invalid_token e authHeader w'
    = (Ret (mkResponse 200 (Server.History docs)), w')
    /\ In r docs
    /\ Permutation (r :: before) docs
    /\ ((forall old, In old (Server.requests w) ->
                     (Server.createdAt old < Server.createdAt r)%Z) ->
        docs = r :: before).
Proof.
  intros Hauth Hfind Hown w' before. subst w' before.
  assert (Hfilter : filter (fun q => Server.userPhone q =? claim_phone user)
                      (Server.requests w ++ [r])
                    = filter (fun q => Server.userPhone q =? claim_phone user)
                        (Server.requests w) ++ [r]).
  { rewrite filter_app. simpl. rewrite Hown, String.eqb_refl. reflexivity. }
  eexists. split; [|split; [|split]].
  - unfold Server.api_history, Server.protected. rewrite Hauth.
    unfold_async. unfold Server.find_by_phone. rewrite Hfind. reflexivity.
  - cbn [Server.requests]. rewrite Hfilter.
    eapply Permutation_in; [apply sort_desc_perm|]. apply in_or_app. right. now left.
  - cbn [Server.requests]. rewrite Hfilter.
    eapply perm_trans; [|apply sort_desc_perm].
    eapply perm_trans; [|apply Permutation_cons_append].
    apply perm_skip. apply Permutation_sym, sort_desc_perm.
  - intros Hnew. cbn [Server.requests]. rewrite Hfilter.
    apply sort_desc_newest. intros y Hy. apply filter_In in Hy. now apply Hnew.
Qed.

(** X16.  A recipe that was answered 200 shows in the caller's history.  In
    either revision of src/server.js: after a recipe request that was
    answered 200, a history request with the same token, if the store
    answers, lists the record the answer described, together with exactly
    the caller's records from before; and it lists it first when every
    record stored before is older. *)
Theorem stored_recipe_shows_in_history
    (e1 e2 : env) (authHeader : option string) (token : string) (user : claims)
    (dish : jsval) (w w' : Server.world) (resp : response Server.body) :
  Server.header_token authHeader = Some token -> token <> "" ->
  jwt_verify e1 token = Verified user -> jwt_verify e2 token = Verified user ->
  find_ok e2 = true -> status resp = 200 ->
  let before :=
    sort_desc Server.createdAt
      (filter (fun q => Server.userPhone q =? claim_phone user) (Server.requests w)) in
  (Direct.api_get_recipe e1 authHeader dish w = (Ret resp, w') ->
   exists r text docs,
     body resp = Server.Recipe (Server._id r) dish text (Server.createdAt r)
     /\ Direct.api_history e2 authHeader w' = (Ret (mkResponse 200 (Server.History docs)), w')
     /\ In r docs /\ Permutation (r :: before) docs
     /\ ((forall old, In old (Server.requests w) -> (Server.createdAt old < now e1)%Z) ->
         docs = r :: before))
  /\ (Guarded.api_get_recipe e1 authHeader dish w = (Ret resp, w') ->
      exists r text docs,
        body resp = Server.Recipe (Server._id r) dish text (Server.createdAt r)
        /\ Guarded.api_history e2 authHeader w'
           = (Ret (mkResponse 200 (Server.History docs)), w')
        /\ In r docs /\ Permutation (r :: before) docs
        /\ ((forall old, In old (Server.requests w) -> (Server.createdAt old < now e1)%Z) ->
            docs = r :: before)).
Proof.
  intros Htok Hne Hver1 Hver2 Hfind Hstatus before.
  split; intros Hrun.
  - destruct (direct_route_outcomes e1 authHeader dish w)
      as (resp0 & w0 & Hrun0 & [(_ & _ & Hno & _)
                               |(u & text & d & Hauth & _ & _ & _ & _ & _ & Hresp & Hw)]);
      rewrite Hrun in Hrun0; injection Hrun0 as <- <-; [contradiction|].
    unfold Direct.authenticateToken in Hauth.
    rewrite (proj1 (verified_token_passes _ _ e1 authHeader token user
                      (fun _ => ret resp) w Htok Hne Hver1)) in Hauth.
    injection Hauth as <-. subst resp w'.
    destruct (history_after_append "Access Denied" "Invalid Token" e2 authHeader user w
                (Server.mkRequest (Server.next_oid w) (claim_phone user) d (Some "Gourmet")
                   (Some text) (now e1))
                (Server.users w) (S (Server.next_oid w))
                (Server.calls w ++ [Direct.prompt dish])
                (proj1 (verified_token_passes _ _ e2 authHeader token user
                          (fun _ => ret (mkResponse 200 (Server.History []))) w
                          Htok Hne Hver2))
                Hfind eq_refl) as (docs & Hhist & Hin & Hperm & Hfirst).
    exists (Server.mkRequest (Server.next_oid w) (claim_phone user) d (Some "Gourmet")
              (Some text) (now e1)), (JStr text), docs.
    split; [reflexivity|]. split; [exact Hhist|]. auto.
  - destruct (guarded_route_outcomes e1 authHeader dish w)
      as (resp0 & w0 & Hrun0 & [(_ & _ & Hno & _)
                               |(u & text & d & rec & Hauth & _ & _ & _ & _ & _ & _
                                 & Hresp & Hw)]);
      rewrite Hrun in Hrun0; injection Hrun0 as <- <-; [contradiction|].
    unfold Guarded.authenticateToken in Hauth.
    rewrite (proj1 (verified_token_passes _ _ e1 authHeader token user
                      (fun _ => ret resp) w Htok Hne Hver1)) in Hauth.
    injection Hauth as <-. subst resp w'.
    destruct (history_after_append "Access Denied: No Token Provided"
                "Access Denied: Invalid Token" e2 authHeader user w
                (Server.mkRequest (Server.next_oid w) (claim_phone user) d (Some "Gourmet")
                   rec (now e1))
                (Server.users w) (S (Server.next_oid w))
                (Server.calls w ++ [Guarded.prompt dish])
                (proj1 (verified_token_passes _ _ e2 authHeader token user
                          (fun _ => ret (mkResponse 200 (Server.History []))) w
                          Htok Hne Hver2))
                Hfind eq_refl) as (docs & Hhist & Hin & Hperm & Hfirst).
    exists (Server.mkRequest (Server.next_oid w) (claim_phone user) d (Some "Gourmet")
              rec (now e1)), (if truthy (JStr text) then JStr text else JNull), docs.
    split; [reflexivity|]. split; [exact Hhist|]. auto.
Qed.

Lemma stored_recipe_shows_in_history_witness :
  exists r text docs,
    Server.Recipe 5 (JStr "Idli") (JStr Sample.blob) 1700000000000
    = Server.Recipe (Server._id r) (JStr "Idli") text (Server.createdAt r)
    /\ Guarded.api_history (Sample.env_of Sample.down) (Some "Bearer good")
         (snd (Guarded.api_get_recipe (Sample.env_of Sample.chef) (Some "Bearer good")
                 (JStr "Idli") Sample.mixed))
       = (Ret (mkResponse 200 (Server.History docs)),
          snd (Guarded.api_get_recipe (Sample.env_of Sample.chef) (Some "Bearer good")
                 (JStr "Idli") Sample.mixed))
    /\ In r docs.
Proof.
  destruct (proj2 (stored_recipe_shows_in_history (Sample.env_of Sample.chef)
                     (Sample.env_of Sample.down) (Some "Bearer good") "good" Sample.asha
                     (JStr "Idli") Sample.mixed _
                     (mkResponse 200
                        (Server.Recipe 5 (JStr "Idli") (JStr Sample.blob) 1700000000000))
                     eq_refl ltac:(discriminate) eq_refl eq_refl eq_refl eq_refl) eq_refl)
    as (r & text & docs & Hbody & Hhist & Hin & _).
  exists r, text, docs. repeat split; assumption.
Defined.

(** What a login with valid strings that was answered 200 has signed: the
    claims of a user with the phone of the request. *)
Lemma login_ok_signs_the_phone (expiresIn : string) (e : env) (name phone : string)
    (w w' : Server.world) (token name' phone' : string) :
  Server.find_or_create expiresIn e (JStr name) (JStr phone) w
  = (Ret (mkResponse 200 (Server.LoginOk token name' phone')), w') ->
  phone' = phone
  /\ exists id, token = jwt_sign e (mkClaims id phone name') expiresIn.
Proof.
  rewrite find_or_create_cases. cbv zeta. cbn [cast_string to_js_string].
  destruct (find_ok e); [|discriminate].
  destruct (find _ (Server.users w)) as [u|] eqn:Hfind.
  - intros H. injection H as <- <- <- _.
    rewrite (find_some_phone _ _ _ Hfind). split; [reflexivity|]. now eexists.
  - destruct (phone =? ""); [discriminate|].
    destruct (save_ok e); [|discriminate].
    intros H. injection H as <- <- <- _. split; [reflexivity|]. now eexists.
Qed.

(** X17.  The token a login returns makes its holder the owner of what it
    requests.  In either revision: when a login with a valid phone was
    answered 200 with a token, and [jwt.verify] reads back the payload that
    [jwt.sign] wrote with that life time, then a recipe request that carries
    the token as second word of its Authorization header, for a non-empty
    dish the model answers, with a store that accepts the write, is answered
    200 and stores one record under the phone that logged in. *)
Theorem token_of_login_owns_the_record
    (e0 e : env) (name phone : string) (w0 w : Server.world)
    (token name' phone' : string) (authHeader : option string) (dish text : string) :
  name <> "" -> ten_digits phone = true ->
  Server.header_token authHeader = Some token -> token <> "" ->
  dish <> "" -> save_ok e = true ->
  (Direct.api_login e0 (JStr name) (JStr phone) w0
   = (Ret (mkResponse 200 (Server.LoginOk token name' phone')), w) ->
   (forall payload,
       claim_phone payload = phone ->
       exists user,
         jwt_verify e (jwt_sign e0 payload "24h") = Verified user
         /\ claim_phone user = phone) ->
   llm e (Direct.prompt (JStr dish)) = Completion text ->
   exists resp w' r,
     Direct.api_get_recipe e authHeader (JStr dish) w = (Ret resp, w')
     /\ status resp = 200
     /\ Server.requests w' = Server.requests w ++ [r]
     /\ Server.userPhone r = phone)
  /\ (Guarded.api_login e0 (JStr name) (JStr phone) w0
      = (Ret (mkResponse 200 (Server.LoginOk token name' phone')), w) ->
      (forall payload,
          claim_phone payload = phone ->
          exists user,
            jwt_verify e (jwt_sign e0 payload "2h") = Verified user
            /\ claim_phone user = phone) ->
      llm e (Guarded.prompt (JStr dish)) = Completion text ->
      exists resp w' r,
        Guarded.api_get_recipe e authHeader (JStr dish) w = (Ret resp, w')
        /\ status resp = 200
        /\ Server.requests w' = Server.requests w ++ [r]
        /\ Server.userPhone r = phone).
Proof.
  intros Hname Hphone Htok Hne Hdish Hsave.
  pose proof (truthy_str dish Hdish) as Htruthy.
  pose proof (ten_digits_nonempty phone Hphone) as Hp. apply String.eqb_neq in Hp.
  destruct (login_valid_input e0 name phone w0 Hname Hphone) as [-> ->].
  split; intros Hlogin Hjwt Hllm;
    apply login_ok_signs_the_phone in Hlogin; destruct Hlogin as [-> (id & ->)];
    destruct (Hjwt (mkClaims id phone name') eq_refl) as (user & Hver & Huser).
  - unfold Direct.api_get_recipe.
    rewrite (proj2 (verified_token_passes _ _ e authHeader _ _ _ w Htok Hne Hver)).
    rewrite (direct_get_recipe_cases e (JStr dish) _ w Htruthy). cbv zeta.
    rewrite Hllm. cbn [cast_string to_js_string]. rewrite Huser, Hp, Hsave.
    do 3 eexists. repeat split.
  - unfold Guarded.api_get_recipe.
    rewrite (proj2 (verified_token_passes _ _ e authHeader _ _ _ w Htok Hne Hver)).
    rewrite (guarded_get_recipe_cases e (JStr dish) _ w Htruthy). cbv zeta.
    rewrite Hllm, Huser, Hp, Hsave.
    destruct (truthy (JStr text)); cbn [cast_string to_js_string];
      do 3 eexists; repeat split.
Qed.

Lemma token_of_login_owns_the_record_witness :
  exists resp w' r,
    Guarded.api_get_recipe (More.env_of Sample.chef 20) (Some "Bearer 9123456780/Ravi/2h")
      (JStr "Dosa") Sample.mixed
    = (Ret resp, w')
    /\ status resp = 200
    /\ Server.requests w' = Server.requests Sample.mixed ++ [r]
    /\ Server.userPhone r = "9123456780".
Proof.
  refine (proj2 (token_of_login_owns_the_record (More.env_of Sample.chef 10)
            (More.env_of Sample.chef 20) "Someone" "9123456780" Sample.mixed Sample.mixed
            "9123456780/Ravi/2h" "Ravi" "9123456780" (Some "Bearer 9123456780/Ravi/2h")
            "Dosa" Sample.blob _ eq_refl eq_refl _ _ eq_refl) eq_refl _ eq_refl);
    try discriminate.
  intros [id ph nm] Hph. simpl in Hph. subst ph.
  eexists. split; reflexivity.
Defined.

(** ** What holds of the store at every moment *)

Lemma preserves_pure {S A : Type} (P : S -> Prop) (m : M S A) :
  (forall s, snd (m s) = s) -> preserves P m.
Proof. intros H s Hs. now rewrite H. Qed.

Lemma findOne_pure (e : env) (phone : jsval) (w : Server.world) :
  snd (Server.findOne e phone w) = w.
Proof.
  unfold Server.findOne.
  destruct (cast_string phone) as [[p|]|]; [destruct (find_ok e)| |]; reflexivity.
Qed.

Lemma find_by_phone_pure (e : env) (phone : string) (w : Server.world) :
  snd (Server.find_by_phone e phone w) = w.
Proof. unfold Server.find_by_phone. now destruct (find_ok e). Qed.

Section RoutesPreserve.
Variable P : Server.world -> Prop.
Hypothesis model_call_ok : forall e prompt, preserves P (Server.model_call e prompt).
Hypothesis new_user_ok : forall e name phone, preserves P (Server.new_UserModel e name phone).
Hypothesis save_user_ok : forall e doc, preserves P (Server.save_user e doc).
Hypothesis new_request_ok :
  forall e phone dish cat text, preserves P (Server.new_RequestModel e phone dish cat text).
Hypothesis save_request_ok : forall e doc, preserves P (Server.save_request e doc).

Lemma find_or_create_preserves (expiresIn : string) (e : env) (name phone : jsval) :
  preserves P (Server.find_or_create expiresIn e name phone).
Proof.
  unfold Server.find_or_create.
  apply preserves_try_catch; [|apply preserves_ret].
  apply preserves_bind; [apply preserves_pure, findOne_pure|]. intros found.
  apply preserves_bind; [|intros user; apply preserves_ret].
  destruct found as [u|]; [apply preserves_ret|].
  apply preserves_bind; [apply new_user_ok|]. intros doc. apply save_user_ok.
Qed.

Lemma api_history_preserves (no_token invalid_token : string) (e : env)
    (authHeader : option string) :
  preserves P (Server.api_history no_token invalid_token e authHeader).
Proof.
  unfold Server.api_history, Server.protected.
  destruct (Server.authenticateToken _ _ e authHeader) as [r|user];
    [apply preserves_ret|].
  apply preserves_try_catch; [|apply preserves_ret].
  apply preserves_bind; [apply preserves_pure, find_by_phone_pure|].
  intros h. apply preserves_ret.
Qed.

Lemma direct_app_preserves (e : env) (req : Server.request) :
  preserves P (Direct.app e req).
Proof.
  destruct req as [name phone|authHeader|authHeader dish]; simpl.
  - unfold Direct.api_login.
    destruct (negb (truthy name) || negb (truthy phone)); [apply preserves_ret|].
    destruct (negb (ten_digits (to_js_string phone))); [apply preserves_ret|].
    apply find_or_create_preserves.
  - apply api_history_preserves.
  - unfold Direct.api_get_recipe, Server.protected.
    destruct (Server.authenticateToken _ _ e authHeader) as [r|user];
      [apply preserves_ret|].
    unfold Direct.get_recipe.
    apply preserves_try_catch; [|apply preserves_ret].
    destruct (negb (truthy dish)); [apply preserves_ret|].
    apply preserves_bind; [apply model_call_ok|]. intros text.
    apply preserves_bind; [apply new_request_ok|]. intros doc.
    apply preserves_bind; [apply save_request_ok|]. intros r.
    apply preserves_ret.
Qed.

Lemma guarded_app_preserves (e : env) (req : Server.request) :
  preserves P (Guarded.app e req).
Proof.
  destruct req as [name phone|authHeader|authHeader dish]; simpl.
  - unfold Guarded.api_login.
    destruct (negb (truthy name) || negb (truthy phone)
              || negb (is_string name) || negb (is_string phone));
      [apply preserves_ret|].
    destruct (negb (Guarded.isValidPhone phone)); [apply preserves_ret|].
    apply find_or_create_preserves.
  - apply api_history_preserves.
  - unfold Guarded.api_get_recipe, Server.protected.
    destruct (Server.authenticateToken _ _ e authHeader) as [r|user];
      [apply preserves_ret|].
    unfold Guarded.get_recipe.
    apply preserves_try_catch; [|apply preserves_ret].
    destruct (negb (truthy dish)); [apply preserves_ret|].
    apply preserves_bind.
    + apply preserves_run_nodes. repeat constructor. intros st.
      apply preserves_bind; [apply model_call_ok|]. intros text.
      apply preserves_ret.
    + intros result.
      apply preserves_bind; [apply new_request_ok|]. intros doc.
      apply preserves_bind; [apply save_request_ok|]. intros r.
      apply preserves_ret.
Qed.
End RoutesPreserve.

Lemma serve_preserves (P : Server.world -> Prop)
    (app : env -> Server.request -> Server.async (response Server.body))
    (trace : list (env * Server.request)) (w : Server.world) :
  (forall e req, preserves P (app e req)) -> P w -> P (Server.serve app trace w).
Proof.
  intros Happ. revert w.
  induction trace as [|[e req] rest IH]; intros w Hw; simpl.
  - exact Hw.
  - apply IH. now apply Happ.
Qed.

Lemma grows_refl (w : Server.world) : grows w w.
Proof.
  repeat split; try (exists []; now rewrite app_nil_r). apply le_n.
Qed.

Lemma grows_trans (w1 w2 w3 : Server.world) : grows w1 w2 -> grows w2 w3 -> grows w1 w3.
Proof.
  intros ([us1 Hu1] & [rs1 Hr1] & [cs1 Hc1] & Hn1) ([us2 Hu2] & [rs2 Hr2] & [cs2 Hc2] & Hn2).
  repeat split.
  - exists (us1 ++ us2). now rewrite Hu2, Hu1, app_assoc.
  - exists (rs1 ++ rs2). now rewrite Hr2, Hr1, app_assoc.
  - exists (cs1 ++ cs2). now rewrite Hc2, Hc1, app_assoc.
  - lia.
Qed.

Lemma preserves_grows {A : Type} (m : Server.async A) (w0 : Server.world) :
  (forall w, grows w (snd (m w))) -> preserves (grows w0) m.
Proof. intros H w Hw. eapply grows_trans; [exact Hw|apply H]. Qed.

Ltac grows_by us rs cs :=
  repeat split; simpl;
  [exists us; now rewrite ?app_nil_r
  |exists rs; now rewrite ?app_nil_r
  |exists cs; now rewrite ?app_nil_r
  |lia].

(** X18.  The store only grows.  Whatever requests either revision of
    src/server.js serves, in whatever environments: the users and the
    records stored before are still there afterwards, unchanged and in their
    places, with later ones appended behind them; no route deletes or
    rewrites a document.  The same holds of the log of prompts sent to the
    model. *)
Theorem store_only_grows (trace : list (env * Server.request)) (w : Server.world) :
  grows w (Server.serve Direct.app trace w)
  /\ grows w (Server.serve Guarded.app trace w).
Proof.
  assert (H1 : forall e prompt, preserves (grows w) (Server.model_call e prompt)).
  { intros e prompt. apply preserves_grows. intros w1. unfold Server.model_call.
    destruct (llm e prompt);
      grows_by (@nil Server.User) (@nil Server.RecipeRequest) [prompt]. }
  assert (H2 : forall e name phone, preserves (grows w) (Server.new_UserModel e name phone)).
  { intros e name phone. apply preserves_grows. intros w1.
    grows_by (@nil Server.User) (@nil Server.RecipeRequest) (@nil string). }
  assert (H3 : forall e doc, preserves (grows w) (Server.save_user e doc)).
  { intros e doc. apply preserves_grows. intros w1. unfold Server.save_user.
    destruct doc as [u|]; [|apply grows_refl].
    destruct (save_ok e && _); [|apply grows_refl].
    grows_by [u] (@nil Server.RecipeRequest) (@nil string). }
  assert (H4 : forall e phone dish cat text,
             preserves (grows w) (Server.new_RequestModel e phone dish cat text)).
  { intros e phone dish cat text. apply preserves_grows. intros w1.
    grows_by (@nil Server.User) (@nil Server.RecipeRequest) (@nil string). }
  assert (H5 : forall e doc, preserves (grows w) (Server.save_request e doc)).
  { intros e doc. apply preserves_grows. intros w1. unfold Server.save_request.
    destruct doc as [r|]; [|apply grows_refl].
    destruct (save_ok e); [|apply grows_refl].
    grows_by (@nil Server.User) [r] (@nil string). }
  split; apply serve_preserves; try apply grows_refl; intros e req.
  - now apply direct_app_preserves.
  - now apply guarded_app_preserves.
Qed.

(** X19.  Phones stay unique.  From a store in which no two users share a
    phone, whatever requests either revision of src/server.js serves, in
    whatever environments and however the store fails along the way, no two
    users share a phone afterwards. *)
Theorem phones_stay_unique (trace : list (env * Server.request)) (w : Server.world) :
  Server.unique_phones w ->
  Server.unique_phones (Server.serve Direct.app trace w)
  /\ Server.unique_phones (Server.serve Guarded.app trace w).
Proof.
  intros Hw. split; apply serve_preserves; auto; intros e req.
  - apply direct_app_unique.
  - apply guarded_app_unique.
Qed.

Lemma phones_stay_unique_witness :
  Server.unique_phones
    (Server.serve Guarded.app
       [ (Sample.env_of Sample.chef, Server.PostLogin (JStr "Asha") (JStr "9876543210"));
         (Sample.env_of Sample.chef, Server.PostLogin (JStr "Meera") (JStr "9876543210"));
         (Sample.env_of Sample.chef, Server.PostLogin (JStr "Ravi") (JStr "9123456780")) ]
       Sample.empty).
Proof.
  apply (phones_stay_unique
           [ (Sample.env_of Sample.chef, Server.PostLogin (JStr "Asha") (JStr "9876543210"));
             (Sample.env_of Sample.chef, Server.PostLogin (JStr "Meera") (JStr "9876543210"));
             (Sample.env_of Sample.chef, Server.PostLogin (JStr "Ravi") (JStr "9123456780")) ]
           Sample.empty).
  constructor.
Defined.

Lemma requests_kept_preserves {A : Type} (m : Server.async A) :
  (forall w, Server.requests (snd (m w)) = Server.requests w) ->
  preserves owned_gourmet m.
Proof. intros H w Hw. unfold owned_gourmet. now rewrite H. Qed.

(** X20.  Every stored record has an owner and the category "Gourmet".
    From a store of which this holds (the empty one, for a start), whatever
    requests either revision of src/server.js serves: every record in the
    store has a non-empty [userPhone] and the category "Gourmet"; the first
    revision gets it from the default of the schema, the second writes it. *)
Theorem records_are_owned_and_gourmet
    (trace : list (env * Server.request)) (w : Server.world) :
  owned_gourmet w ->
  owned_gourmet (Server.serve Direct.app trace w)
  /\ owned_gourmet (Server.serve Guarded.app trace w).
Proof.
  intros Hw.
  assert (Hlogin : forall expiresIn e name phone,
             preserves owned_gourmet (Server.find_or_create expiresIn e name phone)).
  { intros expiresIn e name phone. apply requests_kept_preserves. intros w1.
    rewrite find_or_create_cases. cbv zeta.
    destruct (cast_string phone) as [[p|]|]; try reflexivity.
    destruct (find_ok e); [|reflexivity].
    destruct (find _ (Server.users w1)); [reflexivity|].
    destruct (cast_string name) as [[n|]|]; try reflexivity.
    destruct (p =? ""); [reflexivity|]. now destruct (save_ok e). }
  assert (Hhistory : forall nt it e authHeader,
             preserves owned_gourmet (Server.api_history nt it e authHeader)).
  { intros nt it e authHeader. apply requests_kept_preserves. intros w1.
    unfold Server.api_history.
    destruct (protected_frame nt it e authHeader
                (fun user =>
                   try_catch
                     (bind (Server.find_by_phone e (claim_phone user))
                        (fun history => ret (mkResponse 200 (Server.History history))))
                     (ret (mkResponse 500 (Server.Error "Failed to fetch history")))) w1)
      as [(r & _ & ->)|(user & _ & ->)]; [reflexivity|].
    unfold_async. unfold Server.find_by_phone. now destruct (find_ok e). }
  split; apply serve_preserves; auto; intros e [name phone|authHeader|authHeader dish];
    simpl.
  - unfold Direct.api_login.
    destruct (negb (truthy name) || negb (truthy phone)); [apply preserves_ret|].
    destruct (negb (ten_digits (to_js_string phone))); [apply preserves_ret|].
    apply Hlogin.
  - apply Hhistory.
  - intros w1 Hw1.
    destruct (direct_route_outcomes e authHeader dish w1)
      as (resp & w' & -> & [(_ & _ & _ & _ & Hreq & _)
                           |(user & text & d & _ & _ & _ & _ & Hphone & _ & _ & ->)]).
    + unfold owned_gourmet. simpl. now rewrite Hreq.
    + unfold owned_gourmet. simpl. apply Forall_app. split; [exact Hw1|].
      constructor; [|constructor]. simpl. now split.
  - unfold Guarded.api_login.
    destruct (negb (truthy name) || negb (truthy phone)
              || negb (is_string name) || negb (is_string phone));
      [apply preserves_ret|].
    destruct (negb (Guarded.isValidPhone phone)); [apply preserves_ret|].
    apply Hlogin.
  - apply Hhistory.
  - intros w1 Hw1.
    destruct (guarded_route_outcomes e authHeader dish w1)
      as (resp & w' & -> & [(_ & _ & _ & _ & Hreq & _)
                           |(user & text & d & rec & _ & _ & _ & _ & Hphone & _ & _ & _
                             & ->)]).
    + unfold owned_gourmet. simpl. now rewrite Hreq.
    + unfold owned_gourmet. simpl. apply Forall_app. split; [exact Hw1|].
      constructor; [|constructor]. simpl. now split.
Qed.

Lemma records_are_owned_and_gourmet_witness :
  owned_gourmet
    (Server.serve Direct.app
       [ (Sample.env_of Sample.chef, Server.PostGetRecipe (Some "Bearer good") (JStr "Dal"));
         (Sample.env_of Sample.down, Server.PostGetRecipe (Some "Bearer good") (JStr "Idli")) ]
       Sample.empty).
Proof.
  apply (records_are_owned_and_gourmet
           [ (Sample.env_of Sample.chef,
              Server.PostGetRecipe (Some "Bearer good") (JStr "Dal"));
             (Sample.env_of Sample.down,
              Server.PostGetRecipe (Some "Bearer good") (JStr "Idli")) ]
           Sample.empty).
  constructor.
Defined.

(** ** Every request gets an answer *)











(** X22.  The two routes of src/unnamed/part_000 always answer as well: on
    every request, in every environment and on every store, each ends with
    a response whose status is 200, 400 or 500 (the history route: 200 or
    500), and whose body is an object [{ error }] exactly when the status is
    not 200. *)
Theorem two_stage_requests_are_answered (e : env) (dish : jsval) (wt : TwoStage.world) :
  (exists resp wt',
      TwoStage.api_get_recipe e dish wt = (Ret resp, wt')
      /\ (status resp = 200 \/ status resp = 400 \/ status resp = 500)
      /\ (status resp <> 200 <-> exists msg, body resp = TwoStage.Error msg))
  /\ (exists resp,
         TwoStage.api_history e wt = (Ret resp, wt)
         /\ (status resp = 200 \/ status resp = 500)
         /\ (status resp <> 200 <-> exists msg, body resp = TwoStage.Error msg)).
Proof.
  assert (Herr : forall n msg,
             n <> 200 ->
             (status (mkResponse n (TwoStage.Error msg)) <> 200
              <-> exists m, body (mkResponse n (TwoStage.Error msg)) = TwoStage.Error m)).
  { intros n msg Hn. simpl. split; [intros _; now exists msg|intros _; exact Hn]. }
  split.
  - destruct (truthy dish) eqn:Hdish.
    + rewrite (two_stage_get_recipe_cases e dish wt Hdish). cbv zeta.
      destruct (llm e (TwoStage.categorize_prompt dish)) as [raw|];
        [destruct (llm e (TwoStage.recipe_prompt dish _)) as [blob|];
         [destruct (cast_string dish);
          [destruct (cast_string (if truthy (JStr (trim raw)) then _ else _));
           [destruct (cast_string (if truthy (JStr blob) then _ else _));
            [destruct (save_ok e)|]|]|]|]|];
        do 2 eexists; (split; [reflexivity|]);
        try (split; [right; right; reflexivity|apply Herr; discriminate]).
      split; [left; reflexivity|]. simpl. split; [intros H; now contradiction H|].
      intros [msg H]. discriminate H.
    + rewrite (proj2 (proj2 (falsy_dish_rejected e dish Sample.asha Sample.empty wt Hdish))).
      do 2 eexists. split; [reflexivity|].
      split; [right; left; reflexivity|apply Herr; discriminate].
  - unfold TwoStage.api_history, TwoStage.find_latest. unfold_async.
    destruct (find_ok e); eexists; (split; [reflexivity|]).
    + split; [left; reflexivity|]. simpl. split; [intros H; now contradiction H|].
      intros [msg H]. discriminate H.
    + split; [right; reflexivity|apply Herr; discriminate].
Qed.

(** ** Dishes that are not strings, callers without records *)



(** X24.  The history of src/server.js has no limit and no "not found": it
    lists as many records as the store holds for the caller's phone, however
    many, and a caller without records is answered 200 with an empty list.
    What others have stored changes neither. *)
Theorem history_lists_all_of_the_caller
    (no_token invalid_token : string) (e : env) (authHeader : option string)
    (user : claims) (w : Server.world) :
  Server.authenticateToken no_token invalid_token e authHeader = inr user ->
  find_ok e = true ->
  exists docs,
    Server.api_history no_token invalid_token e authHeader w
    = (Ret (mkResponse 200 (Server.History docs)), w)
    /\ length docs
       = length (filter (fun r => Server.userPhone r =? claim_phone user)
                   (Server.requests w))
    /\ ((forall r, In r (Server.requests w) -> Server.userPhone r <> claim_phone user) ->
        docs = [])
    /\ (forall w2 : Server.world,
           filter (fun r => Server.userPhone r =? claim_phone user) (Server.requests w2)
           = filter (fun r => Server.userPhone r =? claim_phone user) (Server.requests w) ->
           Server.api_history no_token invalid_token e authHeader w2
           = (Ret (mkResponse 200 (Server.History docs)), w2)).
Proof.
  intros Hauth Hfind.
  assert (Hrun : forall w1,
             Server.api_history no_token invalid_token e authHeader w1
             = (Ret (mkResponse 200
                       (Server.History
                          (sort_desc Server.createdAt
                             (filter (fun r => Server.userPhone r =? claim_phone user)
                                (Server.requests w1))))), w1)).
  { intros w1. unfold Server.api_history, Server.protected. rewrite Hauth.
    unfold_async. unfold Server.find_by_phone. now rewrite Hfind. }
  eexists. split; [apply Hrun|split; [|split]].
  - symmetry. apply Permutation_length, sort_desc_perm.
  - intros Hnone.
    assert (filter (fun r => Server.userPhone r =? claim_phone user) (Server.requests w)
            = []) as ->; [|reflexivity].
    induction (Server.requests w) as [|r l IH]; simpl; [reflexivity|].
    destruct (Server.userPhone r =? claim_phone user) eqn:E.
    + apply String.eqb_eq in E. exfalso. apply (Hnone r); [now left|exact E].
    + apply IH. intros q Hq. apply Hnone. now right.
  - intros w2 Hsame. rewrite Hrun, Hsame. reflexivity.
Qed.

Lemma history_lists_all_of_the_caller_witness :
  exists docs,
    Guarded.api_history (Sample.env_of Sample.chef) (Some "Bearer good") Sample.empty
    = (Ret (mkResponse 200 (Server.History docs)), Sample.empty)
    /\ docs = [].
Proof.
  destruct (history_lists_all_of_the_caller "Access Denied: No Token Provided"
              "Access Denied: Invalid Token" (Sample.env_of Sample.chef)
              (Some "Bearer good") Sample.asha Sample.empty eq_refl eq_refl)
    as (docs & Hrun & _ & Hnone & _).
  exists docs. split; [exact Hrun|]. apply Hnone. intros r [].
Defined.
